(** * PR review notifier: the webhook dispatcher, the GitHub helpers and the
      OAuth login handler of [app/main.py], embedded as state-passing
      functions over an event trace, with the properties of the
      specification proved about them. *)

From Stdlib Require Import ZArith String List Lia Floats.PrimFloat.
From stdpp Require Import base option list gmap strings pretty.

Set Warnings "-register-all".

Local Open Scope string_scope.
Local Open Scope list_scope.
Local Open Scope Z_scope.

(** ** Python values

    What [request.json()] and [resp.json()] hand to the program: the value
    [json.loads] builds.  A dict is kept as the list of its items; a key
    occurs once in a Python dict, and [dict_get] reads the first item with
    the key. *)

Inductive json : Type :=
| JNull
| JBool (b : bool)
| JInt (n : Z)
| JFloat (f : float)
| JStr (s : string)
| JList (l : list json)
| JDict (d : list (string * json)).

Fixpoint dict_get (d : list (string * json)) (key : string) : option json :=
  match d with
  | [] => None
  | (k, v) :: d' => if String.eqb k key then Some v else dict_get d' key
  end.

(** [bool(v)]: Python's truth value. *)
Definition truthy (v : json) : bool :=
  match v with
  | JNull => false
  | JBool b => b
  | JInt n => negb (n =? 0)%Z
  | JFloat f => negb (PrimFloat.eqb f 0%float)
  | JStr s => negb (String.eqb s "")
  | JList l => match l with [] => false | _ :: _ => true end
  | JDict d => match d with [] => false | _ :: _ => true end
  end.

(** [v == s] for a [str] literal [s]: only an equal [str] compares equal. *)
Definition eq_str (v : json) (s : string) : bool :=
  match v with
  | JStr s' => String.eqb s' s
  | _ => false
  end.

(** ** Exceptions, events and the outside world *)

Inductive exn : Type :=
| KeyError (key : string)      (* d[key] on a dict without the key *)
| TypeError                    (* v[key] on a value that is not a dict *)
| AttributeError               (* v.get(key) on a value that is not a dict *)
| JSONDecodeError              (* .json() on a body that is not JSON *)
| ClientError                  (* aiohttp: the request got no response *)
| NotifierError                (* the chat transport failed *)
| OAuthError                   (* the provider refused the code *)
| ValueError.                  (* web.HTTPFound without a location *)

Inductive result (A : Type) : Type :=
| Ok (a : A)
| Raise (e : exn).
Arguments Ok {A} a.
Arguments Raise {A} e.

Inductive level : Type := DEBUG | INFO | ERROR.

(** Everything a handler does that is visible outside of it, in order. *)
Inductive event : Type :=
| Log (lvl : level) (msg : string)
| SlackPost (message channel : string)
| HttpGet (endpoint : string)
| HttpDelete (endpoint : string)
| TokenExchange (code : string).

(** An HTTP exchange: a response with its status and its body (when the body
    decodes as JSON), or no response at all. *)
Inductive reply : Type :=
| Reply (status : Z) (body : option json)
| NoReply.

(** Modelled from the spec: the config provider [app/config.py] is not among
    the sources; it "supplies static settings (repo owner/name, label name,
    chat channel, API tokens ...)", and has no logic. *)
Record config : Type := {
  OWNER_NAME : string;
  REPO_NAME : string;
  DEFAULT_LABEL_NAME : string;
  DEFAULT_SLACK_CHANNEL : string;
  REQUIRED_APPROVES : Z;
  GITHUB_API_BASE : string;
  GITHUB_ACCESS_TOKEN : string;
  GITHUB_CLIENT_ID : string;
  GITHUB_CLIENT_SECRET : string
}.

(** The collaborators outside of the program.  Each answer may depend on
    everything that happened before it (the trace so far). *)
Record world : Type := {
  (* aiohttp: session.get(endpoint), session.delete(endpoint) *)
  get_reply : list event -> string -> reply;
  delete_reply : list event -> string -> reply;
  (* the chat API behind Notifier.send_message: None when the post went through *)
  slack_outcome : list event -> string -> string -> option exn;
  (* aioauth_client.GithubClient(client_id, client_secret) *)
  get_authorize_url : string -> string -> string -> string;
  get_access_token : list event -> string -> string -> string -> option string;
  (* str() of the values the program does not format itself *)
  str_other : json -> string
}.

(** The state one request works on: the session of [aiohttp_session] (this
    program only ever stores [str] values in it) and the trace. *)
Record state : Type := {
  session : gmap string string;
  trace : list event
}.

Definition with_trace (st : state) (t : list event) : state :=
  {| session := session st; trace := t |}.

Definition with_session (st : state) (s : gmap string string) : state :=
  {| session := s; trace := trace st |}.

(** ** The monad of a handler: state passing with exceptions *)

Definition M (A : Type) : Type := state -> result A * state.

#[export] Instance M_ret : MRet M := fun A (a : A) st => (Ok a, st).

#[export] Instance M_bind : MBind M := fun A B (f : A -> M B) (m : M A) st =>
  match m st with
  | (Ok a, st') => f a st'
  | (Raise e, st') => (Raise e, st')
  end.

Definition raise {A : Type} (e : exn) : M A := fun st => (Raise e, st).

Definition emit (ev : event) : M unit :=
  fun st => (Ok tt, with_trace st (trace st ++ [ev])).

Definition get_trace : M (list event) := fun st => (Ok (trace st), st).

(** ** Python operations the handlers use *)

(** [v[key]] with a [str] key. *)
Definition getitem (v : json) (key : string) : M json :=
  match v with
  | JDict d =>
      match dict_get d key with
      | Some x => mret x
      | None => raise (KeyError key)
      end
  | _ => raise TypeError
  end.

(** [v.get(key)]: [None] when the key is absent; only a dict has [get]. *)
Definition dot_get (v : json) (key : string) : M json :=
  match v with
  | JDict d => mret (default JNull (dict_get d key))
  | _ => raise AttributeError
  end.

(** Multidict lookup of [request.query]: the first value of the key. *)
Fixpoint query_get (q : list (string * string)) (key : string) : option string :=
  match q with
  | [] => None
  | (k, v) :: q' => if String.eqb k key then Some v else query_get q' key
  end.

Record request : Type := {
  json_body : option json;
  query : list (string * string)
}.

(** [await request.json()] *)
Definition request_json (r : request) : M json :=
  match json_body r with
  | Some d => mret d
  | None => raise JSONDecodeError
  end.

(** What a handler hands back to aiohttp. *)
Inductive response : Type :=
| Response (status : Z) (text : string)
| HTTPFound (location : string).

(** [web.Response(text=...)]: the status defaults to 200. *)
Definition web_Response (text : string) : response := Response 200 text.

(** [web.HTTPFound(location)]: aiohttp refuses to build a redirect without
    a location ([if not location: raise ValueError]), so the empty string
    raises. *)
Definition web_HTTPFound (location : string) : M response :=
  if String.eqb location "" then raise ValueError
  else mret (HTTPFound location).

(** [s] has [sub] as a substring. *)
Definition contains (s sub : string) : Prop :=
  exists pre post : string, s = pre +:+ sub +:+ post.

(** Kinds of events, and how many of a kind a trace holds. *)
Definition is_post (ev : event) : bool :=
  match ev with SlackPost _ _ => true | _ => false end.

Definition is_delete (ev : event) : bool :=
  match ev with HttpDelete _ => true | _ => false end.

Definition is_request (ev : event) : bool :=
  match ev with Log _ _ => false | _ => true end.

Definition count (p : event -> bool) (t : list event) : nat :=
  length (filter (fun ev => p ev = true) t).
Definition is_search (ev : event) : bool :=
  match ev with HttpGet _ => true | _ => false end.

(** The requests of a trace: what is left of it without the log lines. *)
Definition requests (t : list event) : list event :=
  filter (fun ev => is_request ev = true) t.

(** The dict has no item under the key. *)
Definition lacks (d : list (string * json)) (key : string) : bool :=
  match dict_get d key with
  | None => true
  | Some _ => false
  end.


(** ** Vocabulary of the statements *)

(** The value under a path of keys, when every step is a dict that has the
    key: [field data ["pull_request"; "number"]] is the payload's
    [pull_request.number]. *)
Fixpoint field (v : json) (path : list string) : option json :=
  match path with
  | [] => Some v
  | k :: path' =>
      match v with
      | JDict d =>
          match dict_get d k with
          | Some x => field x path'
          | None => None
          end
      | _ => None
      end
  end.

(** The run of [m] from [st] returns a value: it does not raise. *)
Definition returns {A : Type} (m : M A) (st : state) : Prop :=
  exists (a : A) (st' : state), m st = (Ok a, st').

(** The fields [_handle_labeled] reads, and the fields [_handle_reviewed]
    reads whatever the state of the review is. *)
Definition labeled_fields : list (list string) :=
  [["label"; "name"];
   ["pull_request"; "number"];
   ["pull_request"; "title"];
   ["pull_request"; "html_url"];
   ["pull_request"; "user"; "login"]].

Definition submitted_fields : list (list string) :=
  [["review"; "state"];
   ["pull_request"; "number"]].

(** What a direct read of a missing field raises: [KeyError] from a dict
    without the key, [TypeError] from a value that is no dict. *)
Definition read_error (e : exn) : Prop :=
  e = TypeError \/ exists key, e = KeyError key.

(** The configuration with another approval threshold. *)
Definition with_required_approves (cfg : config) (k : Z) : config :=
  {| OWNER_NAME := OWNER_NAME cfg;
     REPO_NAME := REPO_NAME cfg;
     DEFAULT_LABEL_NAME := DEFAULT_LABEL_NAME cfg;
     DEFAULT_SLACK_CHANNEL := DEFAULT_SLACK_CHANNEL cfg;
     REQUIRED_APPROVES := k;
     GITHUB_API_BASE := GITHUB_API_BASE cfg;
     GITHUB_ACCESS_TOKEN := GITHUB_ACCESS_TOKEN cfg;
     GITHUB_CLIENT_ID := GITHUB_CLIENT_ID cfg;
     GITHUB_CLIENT_SECRET := GITHUB_CLIENT_SECRET cfg |}.

(** ** A concrete deployment, to run the program on *)

Module Sample.

Definition cfg : config :=
  {| OWNER_NAME := "acme";
     REPO_NAME := "shop";
     DEFAULT_LABEL_NAME := "needs review";
     DEFAULT_SLACK_CHANNEL := "#reviews";
     REQUIRED_APPROVES := 2;
     GITHUB_API_BASE := "https://api.github.com/";
     GITHUB_ACCESS_TOKEN := "t0k3n";
     GITHUB_CLIENT_ID := "client";
     GITHUB_CLIENT_SECRET := "secret" |}.

(** What the search answers in [env total]. *)
Definition found (total : Z) : list (string * json) :=
  [("total_count", JInt total);
   ("incomplete_results", JBool false);
   ("items", JList [])].

(** A world in which the search finds [total] pull requests, the label
    deletion is answered [del], the chat post goes through and the provider
    accepts every code. *)
Definition env (total : Z) (del : reply) : world :=
  {| get_reply := fun _ _ => Reply 200 (Some (JDict (found total)));
     delete_reply := fun _ _ => del;
     slack_outcome := fun _ _ _ => None;
     get_authorize_url := fun client_id _ scope =>
       "https://github.com/login/oauth/authorize?client_id=" +:+ client_id
         +:+ "&scope=" +:+ scope;
     get_access_token := fun _ _ _ code => Some ("token-for-" +:+ code);
     str_other := fun _ => "?" |}.

Definition st0 : state := {| session := ∅; trace := [] |}.

Definition pull_request : json :=
  JDict [("number", JInt 7);
         ("title", JStr "Fix cart total");
         ("html_url", JStr "https://github.com/acme/shop/pull/7");
         ("user", JDict [("login", JStr "octocat")])].

Definition labeled_items (name : string) : list (string * json) :=
  [("action", JStr "labeled");
   ("label", JDict [("name", JStr name)]);
   ("pull_request", pull_request)].

Definition labeled (name : string) : json := JDict (labeled_items name).

Definition submitted_items (review_state : string) : list (string * json) :=
  [("action", JStr "submitted");
   ("review", JDict [("state", JStr review_state)]);
   ("pull_request", pull_request)].

Definition submitted (review_state : string) : json :=
  JDict (submitted_items review_state).

Definition post (data : json) : request :=
  {| json_body := Some data; query := [] |}.

Definition auth (q : list (string * string)) : request :=
  {| json_body := None; query := q |}.

End Sample.

(** ** Worlds in which things go wrong *)

Module Faulty.

(** The search is answered [search], the deletion [del], the chat post ends
    as [chat] and the provider hands out [token]. *)
Definition env (search del : reply) (chat : option exn)
    (token : option string) : world :=
  {| get_reply := fun _ _ => search;
     delete_reply := fun _ _ => del;
     slack_outcome := fun _ _ _ => chat;
     get_authorize_url := fun client_id _ scope =>
       "https://github.com/login/oauth/authorize?client_id=" +:+ client_id
         +:+ "&scope=" +:+ scope;
     get_access_token := fun _ _ _ _ => token;
     str_other := fun _ => "?" |}.

(** What GitHub answers a search it refuses. *)
Definition rate_limited : reply :=
  Reply 403 (Some (JDict [("message", JStr "API rate limit exceeded")])).

End Faulty.

(** ** The healthcheck loop

    [healthcheck], lines 109-122 of [app/main.py]: a task of its own, with
    its own events.  The loop has no exit; a run is observed for a number of
    turns of [while True], and is then either still [Running], or has
    [Returned], or has [Crashed] with an exception nothing catches. *)

Module Healthcheck.

Inductive event : Type :=
| Logged (lvl : level) (msg : string)
| Pinged (endpoint : string)
| Slept (seconds : Z).

(** The answer to a ping: a response with its status and its body as text
    (when it can be read as text), or no response. *)
Inductive answer : Type :=
| Answer (status : Z) (text : option string)
| NoAnswer.

Inductive crash : Type :=
| NoResponse          (* session.get raised *)
| UnreadableBody.     (* resp.text() raised *)

Inductive outcome : Type :=
| Running
| Returned
| Crashed (why : crash).

(** Modelled from the spec: the two settings of the config provider the loop
    reads, "healthcheck URL + interval"; the URL may be unset. *)
Record settings : Type := {
  HEALTHCHECK_ENDPOINT : option string;
  HEALTHCHECK_INTERVAL : Z
}.

(** [not endpoint]: unset, or the empty string. *)
Definition falsy (endpoint : option string) : bool :=
  match endpoint with
  | None => true
  | Some s => String.eqb s ""
  end.

Definition pinged (t : list event) : list string :=
  omap (fun ev => match ev with Pinged e => Some e | _ => None end) t.

Definition slept (t : list event) : list Z :=
  omap (fun ev => match ev with Slept s => Some s | _ => None end) t.

Definition errors (t : list event) : list string :=
  omap (fun ev => match ev with Logged ERROR m => Some m | _ => None end) t.

Section Loop.

Variable cfg : settings.
Variable monitor : list event -> string -> answer.

(** One turn of the [while True] loop: the exception that ends it, if any,
    and the trace after it. *)
Definition turn (endpoint : string) (t : list event)
  : option crash * list event :=
  let t1 := t ++ [Logged DEBUG "Sending healthcheck..."] in
  let t2 := t1 ++ [Pinged endpoint] in
  match monitor t1 endpoint with
  | NoAnswer => (Some NoResponse, t2)
  | Answer status text =>
      if negb (status =? 200) then
        match text with
        | Some s =>
            (None,
             t2 ++ [Logged ERROR ("Request failed " +:+ s);
                    Slept (HEALTHCHECK_INTERVAL cfg)])
        | None => (Some UnreadableBody, t2)
        end
      else (None, t2 ++ [Slept (HEALTHCHECK_INTERVAL cfg)])
  end.

Fixpoint loop (turns : nat) (endpoint : string) (t : list event)
  : outcome * list event :=
  match turns with
  | O => (Running, t)
  | S turns' =>
      match turn endpoint t with
      | (None, t') => loop turns' endpoint t'
      | (Some why, t') => (Crashed why, t')
      end
  end.

Definition healthcheck (turns : nat) (t : list event)
  : outcome * list event :=
  let endpoint := HEALTHCHECK_ENDPOINT cfg in
  if falsy endpoint then
    (Returned, t ++ [Logged INFO "Healthcheck service is disabled"])
  else
    loop turns (default "" (HEALTHCHECK_ENDPOINT cfg)) t.

End Loop.

(** A monitor that does not answer. *)
Definition silent_monitor : list event -> string -> answer :=
  fun _ _ => NoAnswer.

(** A monitor that answers every ping with [status]. *)
Definition sample_monitor (status : Z) : list event -> string -> answer :=
  fun _ _ => Answer status (Some "pong").

Definition sample_settings : settings :=
  {| HEALTHCHECK_ENDPOINT := Some "https://hc.example.org/ping";
     HEALTHCHECK_INTERVAL := 60 |}.

End Healthcheck.

(** ** The program *)

Section Program.

Variable cfg : config.
Variable env : world.

(** [str(v)], as [str.format], f-strings and [%s] apply it. *)
Definition py_str (v : json) : string :=
  match v with
  | JStr s => s
  | JInt n => pretty n
  | JBool true => "True"
  | JBool false => "False"
  | JNull => "None"
  | _ => str_other env v
  end.

(** [logger.debug], [logger.info], [logger.error] *)
Definition logger (lvl : level) (msg : string) : M unit := emit (Log lvl msg).

(** Modelled from the spec: the notifier client [app/notifier.py] is not
    among the sources.  It is a "single operation: send(message, channel)"
    that "posts to an external chat API", with "no retries; any transport
    failure propagates to the caller uncaught". *)
Definition send_message (message channel : string) : M unit :=
  t ← get_trace;
  emit (SlackPost message channel);;
  match slack_outcome env t message channel with
  | None => mret tt
  | Some e => raise e
  end.

(** [async with session.get(endpoint) as resp] *)
Definition session_get (endpoint : string) : M (Z * option json) :=
  t ← get_trace;
  emit (HttpGet endpoint);;
  match get_reply env t endpoint with
  | Reply status body => mret (status, body)
  | NoReply => raise ClientError
  end.

(** [async with session.delete(endpoint) as resp] *)
Definition session_delete (endpoint : string) : M (Z * option json) :=
  t ← get_trace;
  emit (HttpDelete endpoint);;
  match delete_reply env t endpoint with
  | Reply status body => mret (status, body)
  | NoReply => raise ClientError
  end.

(** [await resp.json()] *)
Definition resp_json (resp : Z * option json) : M json :=
  match resp.2 with
  | Some j => mret j
  | None => raise JSONDecodeError
  end.

(** The two [format] calls of [is_pr_approved]: [url] and [endpoint]. *)
Definition search_url (pr_title : json) : string :=
  "search/issues?q=" +:+ py_str pr_title +:+ "+repo:" +:+ OWNER_NAME cfg
    +:+ "/" +:+ REPO_NAME cfg +:+ "+is:pr+is:open+review:approved".

Definition search_endpoint (pr_title : json) : string :=
  GITHUB_API_BASE cfg +:+ search_url pr_title +:+ "&access_token="
    +:+ GITHUB_ACCESS_TOKEN cfg.

(** [is_pr_approved], lines 69-85: the status of the answer is not looked
    at, the result is [bool(response['total_count'])]. *)
Definition is_pr_approved (pr_title : json) : M bool :=
  let url := search_url pr_title in
  let endpoint := search_endpoint pr_title in
  logger DEBUG ("Checking if " +:+ py_str pr_title +:+ " is approved: " +:+ url);;
  resp ← session_get endpoint;
  response ← resp_json resp;
  total_count ← getitem response "total_count";
  mret (truthy total_count).

(** The two [format] calls of [delete_label]: [url] and [endpoint]. *)
Definition label_url (issue_number : json) : string :=
  "repos/" +:+ OWNER_NAME cfg +:+ "/" +:+ REPO_NAME cfg +:+ "/issues/"
    +:+ py_str issue_number +:+ "/labels/" +:+ DEFAULT_LABEL_NAME cfg.

Definition label_endpoint (issue_number : json) : string :=
  GITHUB_API_BASE cfg +:+ label_url issue_number +:+ "?access_token="
    +:+ GITHUB_ACCESS_TOKEN cfg.

(** [HTTPStatus.NOT_FOUND], [HTTPStatus.OK] *)
Definition NOT_FOUND : Z := 404.
Definition OK : Z := 200.

(** [delete_label], lines 88-106. *)
Definition delete_label (issue_number : json) : M unit :=
  let endpoint := label_endpoint issue_number in
  resp ← session_delete endpoint;
  if resp.1 =? NOT_FOUND then
    logger INFO "Label has been already removed"
  else if resp.1 =? OK then
    logger DEBUG "Label was successfully removed"
  else
    body ← resp_json resp;
    message ← getitem body "message";
    logger ERROR ("Unexpected response: " +:+ py_str message).

(** The f-string of [_handle_labeled]. *)
Definition waiting_message (title user page_url : json) : string :=
  "@here PR _" +:+ py_str title +:+ "_ by *" +:+ py_str user
    +:+ "* is waiting for review <" +:+ py_str page_url +:+ ">".

(** [_handle_labeled], lines 23-36: every field is read before the label is
    compared. *)
Definition _handle_labeled (data : json) : M unit :=
  label ← getitem data "label";
  pr ← getitem data "pull_request";
  issue_number ← getitem pr "number";
  title ← getitem pr "title";
  page_url ← getitem pr "html_url";
  pr_user ← getitem pr "user";
  user ← getitem pr_user "login";
  label_name ← getitem label "name";
  if eq_str label_name (DEFAULT_LABEL_NAME cfg) then
    let message := waiting_message title user page_url in
    logger DEBUG ("Sending notification about " +:+ py_str page_url);;
    send_message message (DEFAULT_SLACK_CHANNEL cfg)
  else
    mret tt.

(** The second f-string of [_handle_reviewed]. *)
Definition ready_message (pr_title : json) : string :=
  ":green_check_mark: PR _" +:+ py_str pr_title +:+ "_ has "
    +:+ pretty (REQUIRED_APPROVES cfg) +:+ " approves and can be merged!".

(** [_handle_reviewed], lines 39-53: [data['pull_request']] is read once for
    the number and once more for the title. *)
Definition _handle_reviewed (data : json) : M unit :=
  review ← getitem data "review";
  state ← getitem review "state";
  pr ← getitem data "pull_request";
  issue_number ← getitem pr "number";
  if eq_str state "approved" then
    pr' ← getitem data "pull_request";
    pr_title ← getitem pr' "title";
    pr_ready_to_merge ← is_pr_approved pr_title;
    if pr_ready_to_merge : bool then
      logger INFO ("We have " +:+ pretty (REQUIRED_APPROVES cfg)
                     +:+ " approves for pr " +:+ py_str pr_title
                     +:+ ", removing label");;
      delete_label issue_number;;
      let message := ready_message pr_title in
      send_message message (DEFAULT_SLACK_CHANNEL cfg)
    else
      mret tt
  else
    mret tt.

(** [handle_pr_event], lines 56-66. *)
Definition handle_pr_event (r : request) : M response :=
  data ← request_json r;
  action ← dot_get data "action";
  (if eq_str action "labeled" then
     _handle_labeled data
   else if eq_str action "submitted" then
     _handle_reviewed data
   else
     logger DEBUG ("Unknown action " +:+ py_str action));;
  mret (web_Response "Ok").

(** The session of the request: [session[key] = v] and
    [session.pop(key, default)]. *)
Definition session_set (key v : string) : M unit :=
  fun st => (Ok tt, with_session st (<[key := v]> (session st))).

Definition session_pop (key dflt : string) : M string :=
  fun st => (Ok (default dflt (session st !! key)),
             with_session st (delete key (session st))).

(** [await github.get_access_token(code)], of which the handler keeps the
    token. *)
Definition github_get_access_token (code : string) : M string :=
  t ← get_trace;
  emit (TokenExchange code);;
  match get_access_token env t (GITHUB_CLIENT_ID cfg)
          (GITHUB_CLIENT_SECRET cfg) code with
  | Some token => mret token
  | None => raise OAuthError
  end.

(** [github_auth], lines 129-147. *)
Definition github_auth (r : request) : M response :=
  match query_get (query r) "code" with
  | None =>
      let redirect_uri := default "/" (query_get (query r) "redirect_uri") in
      session_set "redirect_uri" redirect_uri;;
      web_HTTPFound (get_authorize_url env (GITHUB_CLIENT_ID cfg)
                       (GITHUB_CLIENT_SECRET cfg) "user:email")
  | Some code =>
      token ← github_get_access_token code;
      session_set "token" token;;
      next_uri ← session_pop "redirect_uri" "/";
      logger DEBUG ("Redirecting back to " +:+ next_uri);;
      web_HTTPFound next_uri
  end.

(** *** Names for what the statements below talk about *)

(** The debug line [is_pr_approved] writes first. *)
Definition checking_message (pr_title : json) : string :=
  "Checking if " +:+ py_str pr_title +:+ " is approved: "
    +:+ search_url pr_title.

(** What the search of [is_pr_approved pr_title] is answered when the check
    starts in [st]. *)
Definition search_reply (st : state) (pr_title : json) : reply :=
  get_reply env (trace st ++ [Log DEBUG (checking_message pr_title)])
    (search_endpoint pr_title).

(** What the request of [delete_label issue_number] is answered when the
    deletion starts in [st]. *)
Definition label_reply (st : state) (issue_number : json) : reply :=
  delete_reply env (trace st) (label_endpoint issue_number).

(** The events of an approval check that got an answer. *)
Definition search_events (pr_title : json) : list event :=
  [Log DEBUG (checking_message pr_title);
   HttpGet (search_endpoint pr_title)].

(** The info line [_handle_reviewed] writes before it removes the label. *)
Definition removing_message (pr_title : json) : string :=
  "We have " +:+ pretty (REQUIRED_APPROVES cfg) +:+ " approves for pr "
    +:+ py_str pr_title +:+ ", removing label".


(** ** Properties *)

Lemma eq_str_true (v : json) (s : string) : eq_str v s = true <-> v = JStr s.
Proof.
  destruct v; simpl; try (split; [discriminate | intros H; discriminate H]).
  rewrite String.eqb_eq. split; [intros -> | intros [= ->]]; reflexivity.
Qed.

Lemma eq_str_false (v : json) (s : string) : v <> JStr s -> eq_str v s = false.
Proof.
  intros Hne. destruct (eq_str v s) eqn:E; [| reflexivity].
  apply eq_str_true in E. contradiction.
Qed.

Lemma count_app (p : event -> bool) (t1 t2 : list event) :
  count p (t1 ++ t2) = (count p t1 + count p t2)%nat.
Proof. unfold count. rewrite filter_app, length_app. reflexivity. Qed.

Lemma string_app_assoc (a b c : string) :
  (a +:+ b) +:+ c = a +:+ (b +:+ c).
Proof.
  induction a as [| ch a IH]; [reflexivity |].
  change (String ch ((a +:+ b) +:+ c) = String ch (a +:+ (b +:+ c))).
  rewrite IH. reflexivity.
Qed.

Lemma contains_intro (pre sub post : string) : contains (pre +:+ sub +:+ post) sub.
Proof. exists pre, post. reflexivity. Qed.

Lemma field_step (v : json) (k : string) (path : list string) (x : json) :
  field v (k :: path) = Some x ->
  exists d y, v = JDict d /\ dict_get d k = Some y /\ field y path = Some x.
Proof.
  simpl. destruct v; try discriminate.
  destruct (dict_get d k) as [y |] eqn:E; [| discriminate].
  intros H. exists d, y. auto.
Qed.

Lemma field_nil (v x : json) : field v [] = Some x -> v = x.
Proof. simpl. congruence. Qed.

Lemma returns_intro {A : Type} (m : M A) (st : state) (a : A) :
  (m st).1 = Ok a -> returns m st.
Proof.
  intros H. exists a, (m st).2. destruct (m st) as [res st'].
  simpl in H. subst res. reflexivity.
Defined.

Lemma only_logs (p : event -> bool) (logs : list event) :
  (forall ev, p ev = true -> is_request ev = true) ->
  filter (fun ev => is_request ev = true) logs = [] ->
  count p logs = 0%nat.
Proof.
  intros Hp. unfold count. induction logs as [| ev logs IH]; [reflexivity |].
  rewrite !filter_cons. destruct (decide (is_request ev = true)) as [Hr | Hr].
  - discriminate.
  - intros Hnil. destruct (decide (p ev = true)) as [Hpe | Hpe].
    + elim Hr. auto.
    + auto.
Qed.

Lemma post_is_request (ev : event) : is_post ev = true -> is_request ev = true.
Proof. destruct ev; simpl; congruence. Qed.

Lemma delete_is_request (ev : event) :
  is_delete ev = true -> is_request ev = true.
Proof. destruct ev; simpl; congruence. Qed.

Lemma app_cons_neq {A : Type} (l : list A) (x : A) (rest : list A) :
  l ++ x :: rest <> l.
Proof.
  intros H. apply (f_equal length) in H.
  rewrite length_app in H. simpl in H. lia.
Qed.

(** Reading a path apart, down to the dict lookups the handlers perform. *)
Ltac open_fields :=
  repeat (match goal with
          | H : field _ (_ :: _) = Some _ |- _ =>
              apply field_step in H; destruct H as (? & ? & ? & ? & H)
          | H : field _ [] = Some _ |- _ => apply field_nil in H
          | H : JDict _ = JDict _ |- _ => injection H as H
          | H1 : dict_get ?d ?k = Some _, H2 : dict_get ?d ?k = Some _ |- _ =>
              rewrite H1 in H2; inversion H2; clear H2
          end; subst).

(** Replacing the lookups a handler performs by what they are known to
    give. *)
Ltac lookups :=
  repeat (match goal with
          | H : dict_get _ _ = _ |- _ => rewrite H
          end; simpl).

(** Running a handler: unfold the monad and the Python operations. *)
Ltac run :=
  unfold mbind, M_bind, mret, M_ret, raise, emit, get_trace, logger,
    getitem, dot_get, resp_json, request_json; simpl.


(** Closing a goal [exists l, t = t0 ++ l /\ ...] about the events a run
    appended. *)
Ltac shape :=
  solve [ eexists; repeat match goal with |- _ /\ _ => split end;
          cbn [fst snd trace session with_trace]; rewrite <- ?app_assoc;
          reflexivity ].

(** An approval check that is answered with a JSON object holding
    [total_count] returns the truth value of the count and leaves its two
    events. *)
Lemma is_pr_approved_answered (pr_title : json) (st : state) (status : Z)
    (d : list (string * json)) (total_count : json) :
  search_reply st pr_title = Reply status (Some (JDict d)) ->
  dict_get d "total_count" = Some total_count ->
  is_pr_approved pr_title st
  = (Ok (truthy total_count),
     with_trace st (trace st ++ search_events pr_title)).
Proof.
  unfold search_reply, checking_message. intros Hr Hc.
  unfold is_pr_approved, session_get. run.
  rewrite Hr. simpl. rewrite Hc. simpl.
  unfold with_trace; simpl. rewrite <- app_assoc. reflexivity.
Qed.

(** Whatever the answer, an approval check leaves a mark: its debug line is
    logged before anything else. *)
Lemma is_pr_approved_marks (pr_title : json) (st : state) :
  exists rest,
    trace (is_pr_approved pr_title st).2
    = trace st ++ Log DEBUG (checking_message pr_title) :: rest.
Proof.
  unfold is_pr_approved, session_get, checking_message. run.
  destruct (get_reply env _ _) as [status [j |] |]; simpl.
  - destruct j; simpl;
      try (exists [HttpGet (search_endpoint pr_title)];
           rewrite <- app_assoc; reflexivity).
    destruct (dict_get d "total_count"); simpl;
      exists [HttpGet (search_endpoint pr_title)];
      rewrite <- app_assoc; reflexivity.
  - exists [HttpGet (search_endpoint pr_title)].
    rewrite <- app_assoc; reflexivity.
  - exists [HttpGet (search_endpoint pr_title)].
    rewrite <- app_assoc; reflexivity.
Qed.

(** Every run of [delete_label] issues one DELETE for the issue and, beyond
    it, only writes log lines; the session is left alone. *)
Lemma delete_label_trace (issue_number : json) (st : state) :
  exists logs,
    trace (delete_label issue_number st).2
    = trace st ++ HttpDelete (label_endpoint issue_number) :: logs
    /\ filter (fun ev => is_request ev = true) logs = []
    /\ session (delete_label issue_number st).2 = session st.
Proof.
  unfold delete_label, session_delete. run.
  destruct (delete_reply env _ _) as [status body |]; simpl; [| shape].
  destruct (status =? NOT_FOUND); simpl; [shape |].
  destruct (status =? OK); simpl; [shape |].
  destruct body as [j |]; simpl; [| shape].
  destruct j; simpl; try shape.
  destruct (dict_get d "message"); simpl; shape.
Qed.

(** *** The label remover *)

(** C5 (as amended): for every issue number and every status the deletion
    endpoint answers, [delete_label] raises nothing, provided that an answer
    that is neither 404 nor 200 carries a JSON object with a [message]: it
    sends the one DELETE request and writes one log line -- at INFO, that the
    label has been already removed, on 404; at DEBUG on 200; at ERROR, with
    the message of the API, on any other status. *)
Theorem delete_label_terminal (issue_number : json) (st : state)
    (status : Z) (body : option json) :
  label_reply st issue_number = Reply status body ->
  (status <> NOT_FOUND -> status <> OK ->
   exists d message,
     body = Some (JDict d) /\ dict_get d "message" = Some message) ->
  exists lvl msg,
    delete_label issue_number st
    = (Ok tt,
       with_trace st
         (trace st ++ [HttpDelete (label_endpoint issue_number); Log lvl msg]))
    /\ (status = NOT_FOUND ->
        lvl = INFO /\ msg = "Label has been already removed")
    /\ (status = OK ->
        lvl = DEBUG /\ msg = "Label was successfully removed")
    /\ (status <> NOT_FOUND -> status <> OK ->
        lvl = ERROR /\
        exists d message,
          body = Some (JDict d) /\ dict_get d "message" = Some message /\
          msg = "Unexpected response: " +:+ py_str message).
Proof.
  unfold label_reply. intros Hr Hbody.
  unfold delete_label, session_delete. run. rewrite Hr. simpl.
  destruct (Z.eqb_spec status NOT_FOUND) as [E404 | N404]; run.
  - exists INFO, "Label has been already removed".
    unfold with_trace; simpl. rewrite <- app_assoc.
    split; [reflexivity |].
    split; [auto |].
    split; [intros E200; rewrite E200 in E404; discriminate |].
    intros; contradiction.
  - destruct (Z.eqb_spec status OK) as [E200 | N200]; run.
    + exists DEBUG, "Label was successfully removed".
      unfold with_trace; simpl. rewrite <- app_assoc.
      split; [reflexivity |].
      split; [intros; contradiction |].
      split; [auto |].
      intros; contradiction.
    + destruct (Hbody N404 N200) as (d & message & -> & Hm). run.
      rewrite Hm. run.
      exists ERROR, ("Unexpected response: " +:+ py_str message).
      unfold with_trace; simpl. rewrite <- app_assoc.
      split; [reflexivity |].
      split; [intros; contradiction |].
      split; [intros; contradiction |].
      intros _ _. split; [reflexivity |]. exists d, message. auto.
Qed.

(** *** The dispatcher *)

(** C10: for every /payload body that is a JSON object without the key
    [action], [handle_pr_event] takes the unknown-action branch: it only logs
    a debug line -- no notification, no search, no deletion -- and answers
    HTTP 200 with body "Ok".  The nested fields are read directly instead:
    once the branch is taken, a body without [label] or [pull_request]
    (labeled) or without [review] (submitted) raises [KeyError]. *)
Theorem absent_action_is_unknown (r : request)
    (d : list (string * json)) (st : state) :
  json_body r = Some (JDict d) ->
  dict_get d "action" = None ->
  handle_pr_event r st
  = (Ok (Response 200 "Ok"),
     with_trace st (trace st ++ [Log DEBUG "Unknown action None"]))
  /\ count is_request [Log DEBUG "Unknown action None"] = 0%nat
  /\ (forall (r' : request) (d' : list (string * json)) (st' : state),
        json_body r' = Some (JDict d') ->
        (dict_get d' "action" = Some (JStr "labeled") ->
         dict_get d' "label" = None ->
         handle_pr_event r' st' = (Raise (KeyError "label"), st'))
        /\ (dict_get d' "action" = Some (JStr "labeled") ->
            is_Some (dict_get d' "label") ->
            dict_get d' "pull_request" = None ->
            handle_pr_event r' st' = (Raise (KeyError "pull_request"), st'))
        /\ (dict_get d' "action" = Some (JStr "submitted") ->
            dict_get d' "review" = None ->
            handle_pr_event r' st' = (Raise (KeyError "review"), st'))).
Proof.
  intros Hbody Haction. split; [| split; [reflexivity |]].
  - unfold handle_pr_event. run. rewrite Hbody. simpl.
    rewrite Haction. reflexivity.
  - intros r' d' st' Hbody'. repeat split.
    + intros Ha Hl. unfold handle_pr_event, _handle_labeled. run.
      rewrite Hbody'. simpl. rewrite Ha. simpl. rewrite Hl. reflexivity.
    + intros Ha [l Hl] Hp. unfold handle_pr_event, _handle_labeled. run.
      rewrite Hbody'. simpl. rewrite Ha. simpl. rewrite Hl. simpl.
      rewrite Hp. reflexivity.
    + intros Ha Hr. unfold handle_pr_event, _handle_reviewed. run.
      rewrite Hbody'. simpl. rewrite Ha. simpl. rewrite Hr. reflexivity.
Qed.

(** *** The handler of [labeled] *)

(** C3: for every [labeled] payload whose [label.name] is the configured
    target label, [_handle_labeled] sends exactly one notification, to the
    configured default channel, and its message contains the title of the
    pull request, the login of its author and its [html_url]. *)
Theorem labeled_target_notifies (data : json) (st : state)
    (number title page_url user : json) :
  field data ["label"; "name"] = Some (JStr (DEFAULT_LABEL_NAME cfg)) ->
  field data ["pull_request"; "number"] = Some number ->
  field data ["pull_request"; "title"] = Some title ->
  field data ["pull_request"; "html_url"] = Some page_url ->
  field data ["pull_request"; "user"; "login"] = Some user ->
  exists (message : string) (res : result unit),
    let sent :=
      [Log DEBUG ("Sending notification about " +:+ py_str page_url);
       SlackPost message (DEFAULT_SLACK_CHANNEL cfg)] in
    _handle_labeled data st = (res, with_trace st (trace st ++ sent))
    /\ count is_post sent = 1%nat
    /\ contains message (py_str title)
    /\ contains message (py_str user)
    /\ contains message (py_str page_url)
    /\ (res = Ok tt <->
        slack_outcome env
          (trace st
             ++ [Log DEBUG ("Sending notification about " +:+ py_str page_url)])
          message (DEFAULT_SLACK_CHANNEL cfg) = None).
Proof.
  intros Hname Hnumber Htitle Hurl Huser. open_fields.
  exists (waiting_message title user page_url).
  unfold _handle_labeled. run. lookups.
  rewrite String.eqb_refl. unfold send_message. run.
  destruct (slack_outcome env _ _ _) as [e |] eqn:Hsent; run;
    eexists; (split; [unfold with_trace; simpl; rewrite <- app_assoc;
                      reflexivity |]);
    (split; [reflexivity |]);
    (split; [apply (contains_intro "@here PR _") |]);
    (split; [exists ("@here PR _" +:+ py_str title +:+ "_ by *"),
               ("* is waiting for review <" +:+ py_str page_url +:+ ">");
             unfold waiting_message;
             rewrite !string_app_assoc; reflexivity |]);
    (split; [exists ("@here PR _" +:+ py_str title +:+ "_ by *"
                       +:+ py_str user +:+ "* is waiting for review <"), ">";
             unfold waiting_message;
             rewrite !string_app_assoc; reflexivity |]);
    split; congruence.
Qed.

(** C9: for every [labeled] payload whose [label.name] differs from the
    configured target label, [_handle_labeled] sends no notification: it
    leaves no event at all, and returns when the fields of the pull request
    are there. *)
Theorem labeled_other_is_silent (data : json) (st : state) (name : json) :
  field data ["label"; "name"] = Some name ->
  name <> JStr (DEFAULT_LABEL_NAME cfg) ->
  exists res : result unit,
    _handle_labeled data st = (res, st)
    /\ (is_Some (field data ["pull_request"; "number"]) ->
        is_Some (field data ["pull_request"; "title"]) ->
        is_Some (field data ["pull_request"; "html_url"]) ->
        is_Some (field data ["pull_request"; "user"; "login"]) ->
        res = Ok tt).
Proof.
  intros Hname Hother. apply eq_str_false in Hother. open_fields.
  unfold _handle_labeled. run. lookups.
  destruct (dict_get x "pull_request") as [pr |] eqn:Hpr; simpl;
    [| eexists; split; [reflexivity | intros [? [=]]]].
  destruct pr as [| | | | | | dp]; simpl;
    try (eexists; split; [reflexivity | intros [? [=]]]).
  destruct (dict_get dp "number") as [number |] eqn:Hnumber; simpl;
    [| eexists; split; [reflexivity | intros [? [=]]]].
  destruct (dict_get dp "title") as [title |] eqn:Htitle; simpl;
    [| eexists; split; [reflexivity | intros _ [? [=]]]].
  destruct (dict_get dp "html_url") as [page_url |] eqn:Hurl; simpl;
    [| eexists; split; [reflexivity | intros _ _ [? [=]]]].
  destruct (dict_get dp "user") as [pr_user |] eqn:Huser; simpl;
    [| eexists; split; [reflexivity | intros _ _ _ [? [=]]]].
  destruct pr_user as [| | | | | | du]; simpl;
    try (eexists; split; [reflexivity | intros _ _ _ [? [=]]]).
  destruct (dict_get du "login") as [user |] eqn:Hlogin; simpl;
    [| eexists; split; [reflexivity | intros _ _ _ [? [=]]]].
  rewrite Hother. eexists; split; [reflexivity | auto].
Qed.

(** *** The handler of [submitted] *)

(** C8: for every [submitted] payload whose [review.state] is not
    "approved", [_handle_reviewed] performs no approval check: the run leaves
    the state as it found it, whereas every run of [is_pr_approved] extends
    the trace. *)
Theorem not_approved_no_check (data : json) (st : state) (review_state : json) :
  field data ["review"; "state"] = Some review_state ->
  review_state <> JStr "approved" ->
  (exists res : result unit,
     _handle_reviewed data st = (res, st)
     /\ (is_Some (field data ["pull_request"; "number"]) -> res = Ok tt))
  /\ (forall (pr_title : json) (st0 : state),
        trace (is_pr_approved pr_title st0).2 <> trace st0).
Proof.
  intros Hstate Hother. apply eq_str_false in Hother. split.
  - open_fields. unfold _handle_reviewed. run. lookups.
    destruct (dict_get x "pull_request") as [pr |] eqn:Hpr; simpl;
      [| eexists; split; [reflexivity | intros [? [=]]]].
    destruct pr as [| | | | | | dp]; simpl;
      try (eexists; split; [reflexivity | intros [? [=]]]).
    destruct (dict_get dp "number") as [number |] eqn:Hnumber; simpl;
      [| eexists; split; [reflexivity | intros [? [=]]]].
    rewrite Hother. eexists; split; reflexivity.
  - intros pr_title st0.
    destruct (is_pr_approved_marks pr_title st0) as [rest ->].
    apply app_cons_neq.
Qed.

(** C6: for every [submitted] payload with [review.state] "approved" whose
    approval search returns zero results, [_handle_reviewed] does not delete
    the label and sends no notification: the events of the search are all it
    leaves. *)
Theorem approved_without_results (data : json) (st : state)
    (number title : json) (status : Z) (d : list (string * json)) :
  field data ["review"; "state"] = Some (JStr "approved") ->
  field data ["pull_request"; "number"] = Some number ->
  field data ["pull_request"; "title"] = Some title ->
  search_reply st title = Reply status (Some (JDict d)) ->
  dict_get d "total_count" = Some (JInt 0) ->
  _handle_reviewed data st
  = (Ok tt, with_trace st (trace st ++ search_events title))
  /\ count is_delete (search_events title) = 0%nat
  /\ count is_post (search_events title) = 0%nat.
Proof.
  intros Hstate Hnumber Htitle Hreply Hcount.
  pose proof (is_pr_approved_answered _ _ _ _ _ Hreply Hcount) as Hcheck.
  open_fields. split; [| split; reflexivity].
  unfold _handle_reviewed. run. lookups.
  rewrite Hcheck. reflexivity.
Qed.

(** C2: for every [submitted] payload with [review.state] "approved" whose
    approval search reports a non-zero result count, [_handle_reviewed]
    calls [delete_label] with the payload's [pull_request.number] and, once
    that call has returned, sends exactly one notification, the "can be
    merged" message, to the configured default channel. *)
Theorem approved_and_met (data : json) (st st2 : state)
    (number title : json) (status n : Z) (d : list (string * json)) :
  field data ["review"; "state"] = Some (JStr "approved") ->
  field data ["pull_request"; "number"] = Some number ->
  field data ["pull_request"; "title"] = Some title ->
  search_reply st title = Reply status (Some (JDict d)) ->
  dict_get d "total_count" = Some (JInt n) ->
  n <> 0 ->
  delete_label number
    (with_trace st
       (trace st ++ search_events title ++ [Log INFO (removing_message title)]))
  = (Ok tt, st2) ->
  exists (logs : list event) (res : result unit),
    let ready := SlackPost (ready_message title) (DEFAULT_SLACK_CHANNEL cfg) in
    let added :=
      search_events title
        ++ [Log INFO (removing_message title);
            HttpDelete (label_endpoint number)]
        ++ logs ++ [ready] in
    _handle_reviewed data st = (res, with_trace st (trace st ++ added))
    /\ trace st2 ++ [ready] = trace st ++ added
    /\ count is_request logs = 0%nat
    /\ count is_delete added = 1%nat
    /\ count is_post added = 1%nat
    /\ contains (ready_message title) (py_str title)
    /\ contains (ready_message title) "can be merged"
    /\ (res = Ok tt <->
        slack_outcome env (trace st2) (ready_message title)
          (DEFAULT_SLACK_CHANNEL cfg) = None).
Proof.
  intros Hstate Hnumber Htitle Hreply Hcount Hn Hdelete.
  pose proof (is_pr_approved_answered _ _ _ _ _ Hreply Hcount) as Hcheck.
  destruct (delete_label_trace number
              (with_trace st
                 (trace st ++ search_events title
                    ++ [Log INFO (removing_message title)])))
    as (logs & Htrace & Hlogs & Hsession).
  rewrite Hdelete in Htrace, Hsession. simpl in Htrace, Hsession.
  assert (Hst2 : st2 = with_trace st (trace st2)).
  { destruct st2 as [s2 t2]. unfold with_trace. simpl in *. congruence. }
  exists logs.
  assert (Hadded :
    trace st2 ++ [SlackPost (ready_message title) (DEFAULT_SLACK_CHANNEL cfg)]
    = trace st
        ++ search_events title
        ++ [Log INFO (removing_message title);
            HttpDelete (label_endpoint number)]
        ++ logs
        ++ [SlackPost (ready_message title) (DEFAULT_SLACK_CHANNEL cfg)]).
  { rewrite Htrace. rewrite <- !app_assoc. reflexivity. }
  assert (Hrun : forall res,
    send_message (ready_message title) (DEFAULT_SLACK_CHANNEL cfg) st2
    = (res, with_trace st
              (trace st2 ++ [SlackPost (ready_message title)
                               (DEFAULT_SLACK_CHANNEL cfg)])) ->
    _handle_reviewed data st
    = (res, with_trace st
              (trace st2 ++ [SlackPost (ready_message title)
                               (DEFAULT_SLACK_CHANNEL cfg)]))).
  { intros res Hsend. open_fields. unfold _handle_reviewed. run. lookups.
    rewrite Hcheck. simpl.
    destruct (Z.eqb_spec n 0) as [| _]; [contradiction |]. simpl.
    unfold removing_message, with_trace in Hdelete |- *.
    cbn [session trace] in Hdelete |- *.
    rewrite <- app_assoc. rewrite Hdelete. exact Hsend. }
  assert (Hcounts :
    forall p, (forall ev, p ev = true -> is_request ev = true) ->
              count p logs = 0%nat).
  { intros p Hp. apply only_logs; assumption. }
  assert (Hwt : forall t, with_trace st2 t = with_trace st t).
  { intros t. unfold with_trace. rewrite Hsession. reflexivity. }
  assert (H1 : count is_request logs = 0%nat) by (apply Hcounts; auto).
  assert (H2 : count is_delete
                 (search_events title
                    ++ [Log INFO (removing_message title);
                        HttpDelete (label_endpoint number)]
                    ++ logs
                    ++ [SlackPost (ready_message title)
                          (DEFAULT_SLACK_CHANNEL cfg)]) = 1%nat).
  { rewrite !count_app, (Hcounts _ delete_is_request). reflexivity. }
  assert (H3 : count is_post
                 (search_events title
                    ++ [Log INFO (removing_message title);
                        HttpDelete (label_endpoint number)]
                    ++ logs
                    ++ [SlackPost (ready_message title)
                          (DEFAULT_SLACK_CHANNEL cfg)]) = 1%nat).
  { rewrite !count_app, (Hcounts _ post_is_request). reflexivity. }
  assert (H4 : contains (ready_message title) (py_str title)).
  { apply (contains_intro ":green_check_mark: PR _"). }
  assert (H5 : contains (ready_message title) "can be merged").
  { exists (":green_check_mark: PR _" +:+ py_str title +:+ "_ has "
              +:+ pretty (REQUIRED_APPROVES cfg) +:+ " approves and "), "!".
    unfold ready_message. rewrite !string_app_assoc. reflexivity. }
  unfold send_message in Hrun. revert Hrun. run. rewrite Hwt.
  destruct (slack_outcome env (trace st2) _ _) as [e |] eqn:Hsent;
    intros Hrun; [exists (Raise e) | exists (Ok tt)]; cbn zeta;
    (split; [rewrite (Hrun _ eq_refl), Hadded; reflexivity |]);
    refine (conj Hadded (conj H1 (conj H2 (conj H3 (conj H4 (conj H5 _))))));
    split; congruence.
Qed.

(** *** The OAuth login *)

(** C7 (as amended): a GET /auth without [code] stores the request's
    [redirect_uri] ("/" when there is none) in the session and answers with
    a redirect to the provider's authorize URL; a GET /auth with a [code]
    exchanges the code for an access token, records the token in the
    session, takes the stored target ("/" when there is none) out of the
    session and, when that target is not the empty string, answers with a
    redirect to it.  An empty stored target makes [web.HTTPFound] raise
    [ValueError] instead.  Run on the session the first request left, the
    second one's target is the first one's [redirect_uri]. *)
Theorem github_auth_round_trip (r1 r2 : request) (st st2 : state)
    (code token : string) :
  query_get (query r1) "code" = None ->
  query_get (query r2) "code" = Some code ->
  get_access_token env (trace st2) (GITHUB_CLIENT_ID cfg)
    (GITHUB_CLIENT_SECRET cfg) code = Some token ->
  get_authorize_url env (GITHUB_CLIENT_ID cfg) (GITHUB_CLIENT_SECRET cfg)
    "user:email" <> "" ->
  let target := default "/" (query_get (query r1) "redirect_uri") in
  let st1 := with_session st (<["redirect_uri" := target]> (session st)) in
  let next_uri := default "/" (session st2 !! "redirect_uri") in
  let st3 :=
    {| session := delete "redirect_uri" (<["token" := token]> (session st2));
       trace := trace st2 ++ [TokenExchange code;
                              Log DEBUG ("Redirecting back to " +:+ next_uri)]
    |} in
  github_auth r1 st
  = (Ok (HTTPFound (get_authorize_url env (GITHUB_CLIENT_ID cfg)
                      (GITHUB_CLIENT_SECRET cfg) "user:email")), st1)
  /\ session st1 !! "redirect_uri" = Some target
  /\ (next_uri <> "" -> github_auth r2 st2 = (Ok (HTTPFound next_uri), st3))
  /\ (next_uri = "" -> github_auth r2 st2 = (Raise ValueError, st3))
  /\ session st3 !! "token" = Some token
  /\ session st3 !! "redirect_uri" = None
  /\ (session st2 = session st1 -> next_uri = target).
Proof.
  intros Hnocode Hcode Htoken Hurl target st1 next_uri st3.
  assert (Hsecond :
    github_auth r2 st2
    = ((if String.eqb next_uri "" then Raise ValueError
        else Ok (HTTPFound next_uri)), st3)).
  { unfold github_auth, github_get_access_token, session_set, session_pop,
      web_HTTPFound.
    rewrite Hcode. run. rewrite Htoken. run.
    rewrite lookup_insert_ne by discriminate.
    fold next_uri.
    unfold st3, with_trace, with_session. simpl. rewrite <- app_assoc.
    destruct (String.eqb next_uri ""); reflexivity. }
  split; [| split; [| split; [| split; [| split; [| split]]]]].
  - unfold github_auth, web_HTTPFound. rewrite Hnocode. run.
    destruct (String.eqb_spec
                (get_authorize_url env (GITHUB_CLIENT_ID cfg)
                   (GITHUB_CLIENT_SECRET cfg) "user:email") "");
      [contradiction | reflexivity].
  - apply lookup_insert_eq.
  - intros Hne. rewrite Hsecond.
    destruct (String.eqb_spec next_uri ""); [contradiction | reflexivity].
  - intros Hempty. rewrite Hsecond, Hempty. reflexivity.
  - unfold st3. simpl.
    rewrite lookup_delete_ne by discriminate. apply lookup_insert_eq.
  - unfold st3. simpl. apply lookup_delete_eq.
  - intros Hsession. unfold next_uri. rewrite Hsession. unfold st1. simpl.
    rewrite lookup_insert_eq. reflexivity.
Qed.

(** *** What a run leaves behind, whatever the payload and the world *)

Lemma with_trace_nil (st : state) : with_trace st (trace st ++ []) = st.
Proof. destruct st. unfold with_trace. simpl. rewrite app_nil_r. reflexivity. Qed.

Lemma send_message_state (message channel : string) (st : state) :
  (send_message message channel st).2
  = with_trace st (trace st ++ [SlackPost message channel]).
Proof.
  unfold send_message. run.
  destruct (slack_outcome env _ _ _); reflexivity.
Qed.

Lemma is_pr_approved_state (pr_title : json) (st : state) :
  (is_pr_approved pr_title st).2
  = with_trace st (trace st ++ search_events pr_title).
Proof.
  unfold is_pr_approved, session_get, search_events, checking_message. run.
  unfold with_trace; simpl. rewrite <- app_assoc. simpl.
  destruct (get_reply env _ _) as [status [j |] |]; simpl; try reflexivity.
  destruct j; simpl; try reflexivity.
  destruct (dict_get d "total_count"); reflexivity.
Qed.

Lemma delete_label_state (issue_number : json) (st : state) :
  exists logs,
    (delete_label issue_number st).2
    = with_trace st
        (trace st ++ HttpDelete (label_endpoint issue_number) :: logs)
    /\ requests logs = [].
Proof.
  destruct (delete_label_trace issue_number st) as (logs & Ht & Hl & Hs).
  exists logs. split; [| exact Hl].
  destruct (delete_label issue_number st).2 as [s t]. simpl in *.
  unfold with_trace. simpl. congruence.
Qed.

(** Case analysis on every test a run performs. *)
Ltac cases :=
  repeat (match goal with
          | |- context [match ?x with _ => _ end] =>
              lazymatch x with
              | context [match _ with _ => _ end] => fail
              | _ => destruct x
              end
          end; simpl).

(** The events of a run that stopped before it did anything. *)
Ltac nothing := exists []; split; [symmetry; apply with_trace_nil |].

(** Every run of [_handle_labeled] leaves the session alone and either
    nothing at all or its debug line and one post to the default channel. *)
Lemma _handle_labeled_shape (data : json) (st : state) :
  exists added,
    (_handle_labeled data st).2 = with_trace st (trace st ++ added)
    /\ (added = []
        \/ exists title user page_url,
             added
             = [Log DEBUG ("Sending notification about " +:+ py_str page_url);
                SlackPost (waiting_message title user page_url)
                  (DEFAULT_SLACK_CHANNEL cfg)]).
Proof.
  unfold _handle_labeled, send_message. run. cases;
    try (nothing; left; reflexivity);
    (eexists; split;
     [unfold with_trace; simpl; rewrite <- app_assoc; reflexivity
     | right; do 3 eexists; reflexivity]).
Qed.

(** Case analysis that keeps [is_pr_approved] and [delete_label] whole and
    remembers what every lookup gave. *)
Ltac cases_eqn :=
  repeat (match goal with
          | |- context [is_pr_approved ?t ?s] =>
              let H := fresh "Hcheck" in
              pose proof (is_pr_approved_state t s) as H;
              destruct (is_pr_approved t s) as [[[] | ?] ?];
              simpl in H; subst
          | |- context [delete_label ?n ?s] =>
              let logs := fresh "logs" in
              let H := fresh "Hdelete" in
              let Hl := fresh "Hlogs" in
              destruct (delete_label_state n s) as (logs & H & Hl);
              destruct (delete_label n s) as [[? | ?] ?];
              simpl in H; subst
          | |- context [match ?x with _ => _ end] =>
              lazymatch x with
              | context [match _ with _ => _ end] => fail
              | _ => destruct x eqn:?
              end
          end; simpl).

Lemma _handle_reviewed_shape (data : json) (st : state) :
  exists added,
    (_handle_reviewed data st).2 = with_trace st (trace st ++ added)
    /\ (added = []
        \/ exists title number logs,
             field data ["review"; "state"] = Some (JStr "approved")
             /\ field data ["pull_request"; "title"] = Some title
             /\ field data ["pull_request"; "number"] = Some number
             /\ requests logs = []
             /\ (added = search_events title
                 \/ added
                    = search_events title
                        ++ [Log INFO (removing_message title);
                            HttpDelete (label_endpoint number)] ++ logs
                 \/ added
                    = search_events title
                        ++ [Log INFO (removing_message title);
                            HttpDelete (label_endpoint number)] ++ logs
                        ++ [SlackPost (ready_message title)
                              (DEFAULT_SLACK_CHANNEL cfg)])).
Proof.
  unfold _handle_reviewed, send_message. run. cases_eqn;
    try (nothing; left; reflexivity).
  all: apply eq_str_true in Heqb; subst.
  all: (eexists; split;
        [unfold with_trace, removing_message; cbn [session trace];
         rewrite <- ?app_assoc; reflexivity |]).
  all: right;
    first [exists j3, j2, logs | exists j3, j2, (@nil event)];
    repeat (split; [reflexivity || assumption |]).
  - right; right; reflexivity.
  - right; right; reflexivity.
  - right; left; reflexivity.
  - left; reflexivity.
  - left; reflexivity.
Qed.

Lemma requests_app (t1 t2 : list event) :
  requests (t1 ++ t2) = requests t1 ++ requests t2.
Proof. apply filter_app. Qed.

Lemma count_requests (p : event -> bool) (t : list event) :
  (forall ev, p ev = true -> is_request ev = true) ->
  count p t = count p (requests t).
Proof.
  intros Hp. unfold count, requests.
  induction t as [| ev t IH]; [reflexivity |].
  rewrite !filter_cons.
  destruct (decide (p ev = true)) as [Hpe | Hpe];
    destruct (decide (is_request ev = true)) as [Hr | Hr].
  - rewrite filter_cons. destruct (decide (p ev = true)); [| contradiction].
    simpl. rewrite IH. reflexivity.
  - elim Hr. auto.
  - rewrite filter_cons. destruct (decide (p ev = true)); [contradiction |].
    exact IH.
  - exact IH.
Qed.

(** The requests of a webhook, whatever the body and the world: nothing, or
    the one post of a [labeled] event, or a beginning of search, deletion,
    post. *)
Lemma handle_pr_event_requests (r : request) (st : state) :
  exists added,
    (handle_pr_event r st).2 = with_trace st (trace st ++ added)
    /\ ((exists title user page_url,
           requests added
           = [SlackPost (waiting_message title user page_url)
                (DEFAULT_SLACK_CHANNEL cfg)])
        \/ exists title number k,
             requests added
             = take k [HttpGet (search_endpoint title);
                       HttpDelete (label_endpoint number);
                       SlackPost (ready_message title)
                         (DEFAULT_SLACK_CHANNEL cfg)]).
Proof.
  assert (Hnone : forall added : list event,
            requests added = [] ->
            (exists title user page_url,
               requests added
               = [SlackPost (waiting_message title user page_url)
                    (DEFAULT_SLACK_CHANNEL cfg)])
            \/ exists title number k,
                 requests added
                 = take k [HttpGet (search_endpoint title);
                           HttpDelete (label_endpoint number);
                           SlackPost (ready_message title)
                             (DEFAULT_SLACK_CHANNEL cfg)]).
  { intros added ->. right. exists JNull, JNull, 0%nat. reflexivity. }
  unfold handle_pr_event. run.
  destruct (json_body r) as [data |]; simpl;
    [| nothing; apply Hnone; reflexivity].
  destruct data as [| | | | | | d]; simpl;
    try (nothing; apply Hnone; reflexivity).
  destruct (eq_str (default JNull (dict_get d "action")) "labeled").
  - destruct (_handle_labeled_shape (JDict d) st) as (added & Hst & Hshape).
    exists added.
    destruct (_handle_labeled (JDict d) st) as [[[] | e] st']; simpl in *;
      (split; [exact Hst |]);
      (destruct Hshape as [-> | (title & user & page_url & ->)];
       [apply Hnone; reflexivity
       | left; exists title, user, page_url; reflexivity]).
  - destruct (eq_str (default JNull (dict_get d "action")) "submitted").
    + destruct (_handle_reviewed_shape (JDict d) st) as (added & Hst & Hshape).
      exists added.
      assert (Hreq :
        (exists title user page_url,
           requests added
           = [SlackPost (waiting_message title user page_url)
                (DEFAULT_SLACK_CHANNEL cfg)])
        \/ exists title number k,
             requests added
             = take k [HttpGet (search_endpoint title);
                       HttpDelete (label_endpoint number);
                       SlackPost (ready_message title)
                         (DEFAULT_SLACK_CHANNEL cfg)]).
      { destruct Hshape
          as [-> | (title & number & logs & _ & _ & _ & Hlogs & Hadded)];
          [apply Hnone; reflexivity |].
        right. exists title, number.
        destruct Hadded as [-> | [-> | ->]].
        - exists 1%nat. reflexivity.
        - exists 2%nat. rewrite !requests_app, Hlogs. reflexivity.
        - exists 3%nat. rewrite !requests_app, Hlogs. reflexivity. }
      destruct (_handle_reviewed (JDict d) st) as [[[] | e] st']; simpl in *;
        (split; [exact Hst | exact Hreq]).
    + eexists. split; [reflexivity |]. apply Hnone. reflexivity.
Qed.

(** *** The dispatcher and the exceptions of its handlers *)

Lemma action_is (d : list (string * json)) (s : string) :
  eq_str (default JNull (dict_get d "action")) s = true
  <-> dict_get d "action" = Some (JStr s).
Proof.
  rewrite eq_str_true. destruct (dict_get d "action") as [a |]; simpl.
  - split; congruence.
  - split; discriminate.
Qed.

(** The dispatcher runs the handler of the action and answers when the
    handler returned; an exception of the handler goes through. *)
Lemma handle_pr_event_dispatch (r : request) (d : list (string * json))
    (st : state) :
  json_body r = Some (JDict d) ->
  handle_pr_event r st
  = match
      (if eq_str (default JNull (dict_get d "action")) "labeled" then
         _handle_labeled (JDict d)
       else if eq_str (default JNull (dict_get d "action")) "submitted" then
         _handle_reviewed (JDict d)
       else
         logger DEBUG ("Unknown action "
                         +:+ py_str (default JNull (dict_get d "action")))) st
    with
    | (Ok _, st') => (Ok (Response 200 "Ok"), st')
    | (Raise e, st') => (Raise e, st')
    end.
Proof.
  intros Hbody. unfold handle_pr_event.
  unfold mbind, M_bind, mret, M_ret, request_json, dot_get.
  rewrite Hbody. reflexivity.
Qed.

(** Closing the case of a read that failed before anything was done. *)
Ltac read_failed :=
  solve [ eexists; split; [left; reflexivity | reflexivity]
        | eexists; split; [right; eexists; reflexivity | reflexivity] ].

(** Closing the case in which every field was found, against the
    hypothesis [Hnone] that one of the fields [Hin] lists is missing. *)
Ltac all_found Hin Hnone :=
  exfalso;
  repeat (apply elem_of_cons in Hin; destruct Hin as [-> | Hin]);
  [ simpl in Hnone;
    repeat (match goal with
            | H : dict_get _ _ = _ |- _ => rewrite H in Hnone
            end; simpl in Hnone);
    discriminate Hnone .. | apply elem_of_nil in Hin; exact Hin ].

Lemma _handle_labeled_missing (data : json) (st : state) (path : list string) :
  path ∈ labeled_fields ->
  field data path = None ->
  exists e, read_error e /\ _handle_labeled data st = (Raise e, st).
Proof.
  intros Hin Hnone. unfold labeled_fields in Hin.
  unfold _handle_labeled, read_error. run. cases_eqn;
    first [read_failed | all_found Hin Hnone].
Qed.

Lemma _handle_reviewed_missing (data : json) (st : state) (path : list string) :
  path ∈ submitted_fields ->
  field data path = None ->
  exists e, read_error e /\ _handle_reviewed data st = (Raise e, st).
Proof.
  intros Hin Hnone. unfold submitted_fields in Hin.
  unfold _handle_reviewed, read_error. run.
  repeat (match goal with
          | |- context [match ?x with _ => _ end] =>
              lazymatch x with
              | context [match _ with _ => _ end] => fail
              | context [is_pr_approved] => fail
              | context [eq_str] => fail
              | _ => destruct x eqn:?
              end
          end; simpl);
    first [read_failed | all_found Hin Hnone].
Qed.

Lemma _handle_reviewed_missing_title (data : json) (st : state) :
  field data ["review"; "state"] = Some (JStr "approved") ->
  field data ["pull_request"; "title"] = None ->
  exists e, read_error e /\ _handle_reviewed data st = (Raise e, st).
Proof.
  intros Hstate Hnone. open_fields. simpl in Hnone.
  unfold _handle_reviewed, read_error. run. lookups.
  destruct (dict_get x "pull_request") as [pr |]; simpl; [| read_failed].
  destruct pr as [| | | | | | dp]; simpl; try read_failed.
  destruct (dict_get dp "number"); simpl; [| read_failed].
  destruct (dict_get dp "title"); simpl; [discriminate | read_failed].
Qed.

(** C1 (as amended): for every POST to /payload whose body is a JSON object,
    [handle_pr_event] answers HTTP 200 with body "Ok" exactly when the
    handler of the branch it takes returns -- [_handle_labeled] for the
    action "labeled", [_handle_reviewed] for "submitted", nothing to wait
    for on any other or absent action -- and an exception of that handler is
    the exception of the dispatcher.  A payload that lacks a field its
    branch reads directly is not acknowledged: the handler raises
    ([KeyError], or [TypeError] where the parent is no dict) before anything
    is logged or sent. *)
Theorem handle_pr_event_acknowledges (r : request)
    (d : list (string * json)) (st : state) :
  json_body r = Some (JDict d) ->
  ((exists st', handle_pr_event r st = (Ok (Response 200 "Ok"), st'))
   <-> (dict_get d "action" = Some (JStr "labeled") ->
        returns (_handle_labeled (JDict d)) st)
       /\ (dict_get d "action" = Some (JStr "submitted") ->
           returns (_handle_reviewed (JDict d)) st))
  /\ (forall e st',
        dict_get d "action" = Some (JStr "labeled") ->
        _handle_labeled (JDict d) st = (Raise e, st') ->
        handle_pr_event r st = (Raise e, st'))
  /\ (forall e st',
        dict_get d "action" = Some (JStr "submitted") ->
        _handle_reviewed (JDict d) st = (Raise e, st') ->
        handle_pr_event r st = (Raise e, st'))
  /\ (forall path,
        dict_get d "action" = Some (JStr "labeled") ->
        path ∈ labeled_fields ->
        field (JDict d) path = None ->
        exists e, read_error e /\ handle_pr_event r st = (Raise e, st))
  /\ (forall path,
        dict_get d "action" = Some (JStr "submitted") ->
        path ∈ submitted_fields ->
        field (JDict d) path = None ->
        exists e, read_error e /\ handle_pr_event r st = (Raise e, st))
  /\ (dict_get d "action" = Some (JStr "submitted") ->
      field (JDict d) ["review"; "state"] = Some (JStr "approved") ->
      field (JDict d) ["pull_request"; "title"] = None ->
      exists e, read_error e /\ handle_pr_event r st = (Raise e, st)).
Proof.
  intros Hbody. rewrite (handle_pr_event_dispatch r d st Hbody).
  assert (Hlabeled : forall res,
            dict_get d "action" = Some (JStr "labeled") ->
            (if eq_str (default JNull (dict_get d "action")) "labeled" then
               _handle_labeled (JDict d)
             else res) st
            = _handle_labeled (JDict d) st).
  { intros res Ha. apply action_is in Ha. rewrite Ha. reflexivity. }
  assert (Hsubmitted : forall res,
            dict_get d "action" = Some (JStr "submitted") ->
            (if eq_str (default JNull (dict_get d "action")) "labeled" then
               res
             else if eq_str (default JNull (dict_get d "action")) "submitted"
                  then _handle_reviewed (JDict d)
                  else logger DEBUG
                         ("Unknown action "
                            +:+ py_str (default JNull (dict_get d "action"))))
              st
            = _handle_reviewed (JDict d) st).
  { intros res Ha. rewrite Ha. reflexivity. }
  split; [| split; [| split; [| split; [| split]]]].
  - split.
    + intros [st' Hrun]. split; intros Ha.
      * rewrite (Hlabeled _ Ha) in Hrun. unfold returns.
        destruct (_handle_labeled (JDict d) st) as [[[] | e] st''];
          [exists tt, st''; reflexivity | discriminate].
      * rewrite (Hsubmitted _ Ha) in Hrun. unfold returns.
        destruct (_handle_reviewed (JDict d) st) as [[[] | e] st''];
          [exists tt, st''; reflexivity | discriminate].
    + intros [Hl Hs].
      destruct (eq_str (default JNull (dict_get d "action")) "labeled") eqn:El.
      * apply action_is in El. destruct (Hl El) as ([] & st' & ->).
        exists st'. reflexivity.
      * destruct (eq_str (default JNull (dict_get d "action")) "submitted")
          eqn:Es.
        -- apply action_is in Es. destruct (Hs Es) as ([] & st' & ->).
           exists st'. reflexivity.
        -- eexists. reflexivity.
  - intros e st' Ha Hrun. rewrite (Hlabeled _ Ha), Hrun. reflexivity.
  - intros e st' Ha Hrun. rewrite (Hsubmitted _ Ha), Hrun. reflexivity.
  - intros path Ha Hin Hnone. rewrite (Hlabeled _ Ha).
    destruct (_handle_labeled_missing (JDict d) st path Hin Hnone)
      as (e & He & ->).
    exists e. split; [exact He | reflexivity].
  - intros path Ha Hin Hnone. rewrite (Hsubmitted _ Ha).
    destruct (_handle_reviewed_missing (JDict d) st path Hin Hnone)
      as (e & He & ->).
    exists e. split; [exact He | reflexivity].
  - intros Ha Hstate Hnone. rewrite (Hsubmitted _ Ha).
    destruct (_handle_reviewed_missing_title (JDict d) st Hstate Hnone)
      as (e & He & ->).
    exists e. split; [exact He | reflexivity].
Qed.

(** *** Further properties of the dispatcher *)

(** What [_handle_labeled] leaves, with the fields of the payload it took
    the message from. *)
Lemma _handle_labeled_posts (data : json) (st : state) :
  exists added,
    (_handle_labeled data st).2 = with_trace st (trace st ++ added)
    /\ (added = []
        \/ exists title user page_url,
             field data ["label"; "name"] = Some (JStr (DEFAULT_LABEL_NAME cfg))
             /\ field data ["pull_request"; "title"] = Some title
             /\ field data ["pull_request"; "user"; "login"] = Some user
             /\ field data ["pull_request"; "html_url"] = Some page_url
             /\ added
                = [Log DEBUG ("Sending notification about "
                                +:+ py_str page_url);
                   SlackPost (waiting_message title user page_url)
                     (DEFAULT_SLACK_CHANNEL cfg)]).
Proof.
  unfold _handle_labeled, send_message. run. cases_eqn;
    try (nothing; left; reflexivity);
    match goal with
    | H : eq_str _ _ = true |- _ => apply eq_str_true in H; subst
    end;
    (eexists; split;
     [unfold with_trace; simpl; rewrite <- app_assoc; reflexivity |]);
    right; do 3 eexists;
    repeat (split;
            [simpl;
             repeat (match goal with
                     | H : dict_get _ _ = _ |- _ => rewrite H
                     end; simpl);
             reflexivity |]);
    reflexivity.
Qed.

(** X: whatever the body of the webhook and whatever the world answers, the
    requests [handle_pr_event] makes depend on the action as follows.  For
    "labeled": none, or the one post of the waiting message, made of the
    payload's title, author and URL, when the label is the target label --
    GitHub is not contacted.  For "submitted": a beginning of search for the
    payload's title, deletion of the label on the payload's issue number,
    post of the "can be merged" message -- so no deletion without a search
    before it and no such post without a deletion before it.  For any other
    action, and for a body that is no JSON object: none. *)
Theorem webhook_request_order (r : request) (st : state) :
  exists added,
    (handle_pr_event r st).2 = with_trace st (trace st ++ added)
    /\ (forall d,
          json_body r = Some (JDict d) ->
          dict_get d "action" = Some (JStr "labeled") ->
          requests added = []
          \/ exists title user page_url,
               field (JDict d) ["label"; "name"]
               = Some (JStr (DEFAULT_LABEL_NAME cfg))
               /\ field (JDict d) ["pull_request"; "title"] = Some title
               /\ field (JDict d) ["pull_request"; "user"; "login"] = Some user
               /\ field (JDict d) ["pull_request"; "html_url"] = Some page_url
               /\ requests added
                  = [SlackPost (waiting_message title user page_url)
                       (DEFAULT_SLACK_CHANNEL cfg)])
    /\ (forall d,
          json_body r = Some (JDict d) ->
          dict_get d "action" = Some (JStr "submitted") ->
          requests added = []
          \/ exists title number k,
               field (JDict d) ["review"; "state"] = Some (JStr "approved")
               /\ field (JDict d) ["pull_request"; "title"] = Some title
               /\ field (JDict d) ["pull_request"; "number"] = Some number
               /\ requests added
                  = take k [HttpGet (search_endpoint title);
                            HttpDelete (label_endpoint number);
                            SlackPost (ready_message title)
                              (DEFAULT_SLACK_CHANNEL cfg)])
    /\ ((forall d,
           json_body r = Some (JDict d) ->
           dict_get d "action" <> Some (JStr "labeled")
           /\ dict_get d "action" <> Some (JStr "submitted")) ->
        requests added = []).
Proof.
  destruct (json_body r) as [data |] eqn:Hbody.
  2: { exists []. split.
       - unfold handle_pr_event. run. rewrite Hbody. simpl.
         symmetry. apply with_trace_nil.
       - split; [| split]; try (intros d [=]); reflexivity. }
  assert (Hother : (forall d0, data <> JDict d0) ->
            (handle_pr_event r st).2 = with_trace st (trace st ++ [])).
  { intros Hd. unfold handle_pr_event. run. rewrite Hbody. simpl.
    rewrite with_trace_nil. destruct data; try reflexivity.
    elim (Hd d). reflexivity. }
  destruct data as [| | | | | | d];
    try (exists []; split; [apply Hother; intros d0; discriminate |];
         split; [| split]; try (intros d [=]); reflexivity).
  clear Hother.
  rewrite (handle_pr_event_dispatch r d st Hbody).
  assert (Hsnd : forall x : result unit * state,
            (match x with
             | (Ok _, st') => (Ok (Response 200 "Ok"), st')
             | (Raise e, st') => (Raise e, st')
             end).2 = x.2).
  { intros [[[] | e] st']; reflexivity. }
  rewrite Hsnd.
  destruct (eq_str (default JNull (dict_get d "action")) "labeled") eqn:El.
  - apply action_is in El.
    destruct (_handle_labeled_posts (JDict d) st) as (added & Hst & Hshape).
    exists added. split; [exact Hst |]. split; [| split].
    + intros d0 [= <-] _.
      destruct Hshape
        as [-> | (title & user & page_url & H1 & H2 & H3 & H4 & ->)];
        [left; reflexivity |].
      right. exists title, user, page_url. auto.
    + intros d0 [= <-] Ha. rewrite El in Ha. discriminate.
    + intros Hnot. destruct (Hnot d eq_refl) as [Hl _]. contradiction.
  - destruct (eq_str (default JNull (dict_get d "action")) "submitted") eqn:Es.
    + apply action_is in Es.
      destruct (_handle_reviewed_shape (JDict d) st) as (added & Hst & Hshape).
      exists added. split; [exact Hst |]. split; [| split].
      * intros d0 [= <-] Ha. rewrite Es in Ha. discriminate.
      * intros d0 [= <-] _.
        destruct Hshape
          as [-> | (title & number & logs & H1 & H2 & H3 & Hlogs & Hadded)];
          [left; reflexivity |].
        right. exists title, number.
        destruct Hadded as [-> | [-> | ->]].
        -- exists 1%nat. auto.
        -- exists 2%nat. rewrite !requests_app, Hlogs. auto.
        -- exists 3%nat. rewrite !requests_app, Hlogs. auto.
      * intros Hnot. destruct (Hnot d eq_refl) as [_ Hs]. contradiction.
    + eexists. split; [reflexivity |]. split; [| split].
      * intros d0 [= <-] Ha. apply action_is in Ha. congruence.
      * intros d0 [= <-] Ha. apply action_is in Ha. congruence.
      * reflexivity.
Qed.

(** X: one webhook makes at most one chat post, one search and one label
    deletion; a post always goes to the configured default channel; and the
    session is never touched. *)
Theorem webhook_at_most_once (r : request) (st : state) :
  exists added,
    trace (handle_pr_event r st).2 = trace st ++ added
    /\ session (handle_pr_event r st).2 = session st
    /\ (count is_post added <= 1)%nat
    /\ (count is_search added <= 1)%nat
    /\ (count is_delete added <= 1)%nat
    /\ (forall message channel,
          SlackPost message channel ∈ added ->
          channel = DEFAULT_SLACK_CHANNEL cfg).
Proof.
  destruct (handle_pr_event_requests r st) as (added & Hst & Hreq).
  exists added. rewrite Hst. split; [reflexivity |]. split; [reflexivity |].
  assert (Hsearch : forall ev, is_search ev = true -> is_request ev = true)
    by (intros []; simpl; congruence).
  rewrite (count_requests is_post added post_is_request),
    (count_requests is_search added Hsearch),
    (count_requests is_delete added delete_is_request).
  assert (Hin : forall message channel,
            SlackPost message channel ∈ added ->
            SlackPost message channel ∈ requests added).
  { intros message channel Hel. apply list_elem_of_filter. auto. }
  destruct Hreq as [(title & user & page_url & Heq)
                   | (title & number & k & Heq)];
    rewrite Heq in Hin |- *; clear Heq.
  - do 3 (split; [cbv; lia |]).
    intros message channel Hel. apply Hin in Hel.
    apply list_elem_of_singleton in Hel. congruence.
  - destruct k as [| [| [| k]]]; simpl in Hin |- *;
      rewrite ?take_nil in Hin |- *;
      do 3 (split; [cbv; lia |]);
      intros message channel Hel; apply Hin in Hel;
      repeat (apply elem_of_cons in Hel; destruct Hel as [Hel | Hel];
              [congruence |]);
      apply elem_of_nil in Hel; contradiction.
Qed.

(** X: a body that is JSON but not an object (a list, a string, a number,
    [true], [null]) is rejected by [data.get]: the handler raises
    [AttributeError] before it does anything. *)
Theorem payload_must_be_object (r : request) (data : json) (st : state) :
  json_body r = Some data ->
  (forall d, data <> JDict d) ->
  handle_pr_event r st = (Raise AttributeError, st).
Proof.
  intros Hbody Hnot. unfold handle_pr_event. run. rewrite Hbody. simpl.
  destruct data; try reflexivity. elim (Hnot d). reflexivity.
Qed.

(** X: an [action] that is there but is neither "labeled" nor "submitted"
    -- another string, or no string at all -- is acknowledged with HTTP 200
    "Ok" after one debug line that names it; nothing else happens. *)
Theorem other_action_is_logged (r : request) (d : list (string * json))
    (action : json) (st : state) :
  json_body r = Some (JDict d) ->
  dict_get d "action" = Some action ->
  action <> JStr "labeled" ->
  action <> JStr "submitted" ->
  handle_pr_event r st
  = (Ok (Response 200 "Ok"),
     with_trace st
       (trace st ++ [Log DEBUG ("Unknown action " +:+ py_str action)])).
Proof.
  intros Hbody Haction Hl Hs. unfold handle_pr_event. run.
  rewrite Hbody. simpl. rewrite Haction. simpl.
  rewrite (eq_str_false _ _ Hl), (eq_str_false _ _ Hs). reflexivity.
Qed.

(** *** Further properties of the two handlers *)

(** X: [_handle_labeled] reads [number], [title], [html_url] and [user] of
    the pull request before it looks at the label: when one of them is
    missing it raises [KeyError] for the first missing one, whatever the
    label is, and nothing is logged or sent. *)
Theorem labeled_reads_fields_first (d dp : list (string * json))
    (label : json) (key : string) (st : state) :
  dict_get d "label" = Some label ->
  dict_get d "pull_request" = Some (JDict dp) ->
  List.find (lacks dp) ["number"; "title"; "html_url"; "user"] = Some key ->
  _handle_labeled (JDict d) st = (Raise (KeyError key), st).
Proof.
  intros Hlabel Hpr Hfind. unfold _handle_labeled. run.
  rewrite Hlabel. simpl. rewrite Hpr. simpl.
  revert Hfind. unfold lacks. simpl.
  destruct (dict_get dp "number"); simpl; [| intros [= <-]; reflexivity].
  destruct (dict_get dp "title"); simpl; [| intros [= <-]; reflexivity].
  destruct (dict_get dp "html_url"); simpl; [| intros [= <-]; reflexivity].
  destruct (dict_get dp "user"); simpl; [| intros [= <-]; reflexivity].
  discriminate.
Qed.

(** X: [_handle_reviewed] reads the issue number before it looks at the
    state of the review: a review in any state on a pull request without
    [number] raises [KeyError], and nothing is logged, searched or sent. *)
Theorem reviewed_reads_number_first (data : json) (d dp : list (string * json))
    (review_state : json) (st : state) :
  data = JDict d ->
  field data ["review"; "state"] = Some review_state ->
  dict_get d "pull_request" = Some (JDict dp) ->
  dict_get dp "number" = None ->
  _handle_reviewed data st = (Raise (KeyError "number"), st).
Proof.
  intros -> Hstate Hpr Hnumber. open_fields.
  unfold _handle_reviewed. run. lookups. reflexivity.
Qed.

(** X: when the approval check of an approved review raises -- no answer
    from GitHub, a body that is not JSON, an answer without [total_count] --
    [_handle_reviewed] raises the same exception, and the events of the
    search are all it leaves: no deletion, no notification. *)
Theorem failed_check_aborts (data : json) (st : state)
    (number title : json) (e : exn) :
  field data ["review"; "state"] = Some (JStr "approved") ->
  field data ["pull_request"; "number"] = Some number ->
  field data ["pull_request"; "title"] = Some title ->
  (is_pr_approved title st).1 = Raise e ->
  _handle_reviewed data st
  = (Raise e, with_trace st (trace st ++ search_events title)).
Proof.
  intros Hstate Hnumber Htitle Hcheck.
  pose proof (is_pr_approved_state title st) as Hst.
  open_fields. unfold _handle_reviewed. run. lookups.
  destruct (is_pr_approved title st) as [res st']. simpl in *.
  subst res st'. reflexivity.
Qed.

(** X: when the approval check says yes and [delete_label] raises,
    [_handle_reviewed] raises the same exception and does not announce the
    pull request: after the DELETE request there are only log lines. *)
Theorem failed_deletion_is_not_announced (data : json) (st : state)
    (number title : json) (e : exn) :
  field data ["review"; "state"] = Some (JStr "approved") ->
  field data ["pull_request"; "number"] = Some number ->
  field data ["pull_request"; "title"] = Some title ->
  (is_pr_approved title st).1 = Ok true ->
  (delete_label number
     (with_trace st
        (trace st ++ search_events title
           ++ [Log INFO (removing_message title)]))).1 = Raise e ->
  exists logs,
    _handle_reviewed data st
    = (Raise e,
       with_trace st
         (trace st ++ search_events title
            ++ [Log INFO (removing_message title);
                HttpDelete (label_endpoint number)] ++ logs))
    /\ requests logs = []
    /\ count is_post
         (search_events title
            ++ [Log INFO (removing_message title);
                HttpDelete (label_endpoint number)] ++ logs) = 0%nat.
Proof.
  intros Hstate Hnumber Htitle Hcheck Hdelete.
  pose proof (is_pr_approved_state title st) as Hst.
  destruct (delete_label_state number
              (with_trace st
                 (trace st ++ search_events title
                    ++ [Log INFO (removing_message title)])))
    as (logs & Hst2 & Hlogs).
  exists logs. split; [| split; [exact Hlogs |]].
  - open_fields. unfold _handle_reviewed. run. lookups.
    destruct (is_pr_approved title st) as [res st']. simpl in *.
    subst res st'. simpl.
    unfold removing_message, with_trace in Hdelete, Hst2 |- *.
    cbn [session trace] in Hdelete, Hst2 |- *.
    rewrite <- app_assoc.
    destruct (delete_label number _) as [res st2]. simpl in *.
    subst res st2. rewrite <- !app_assoc. reflexivity.
  - rewrite !count_app, (only_logs is_post logs post_is_request Hlogs).
    reflexivity.
Qed.

(** X: [is_pr_approved] never looks at the status of the search response:
    what it returns or raises is read off the body alone -- the truth value
    of [total_count] when the body is an object that has it, [KeyError] when
    it has not, [TypeError] when the body is not an object,
    [JSONDecodeError] when it is not JSON. *)
Theorem is_pr_approved_reads_body_only (pr_title : json) (st : state)
    (status : Z) (body : option json) :
  search_reply st pr_title = Reply status body ->
  (is_pr_approved pr_title st).1
  = match body with
    | None => Raise JSONDecodeError
    | Some (JDict d) =>
        match dict_get d "total_count" with
        | Some total_count => Ok (truthy total_count)
        | None => Raise (KeyError "total_count")
        end
    | Some _ => Raise TypeError
    end.
Proof.
  unfold search_reply, checking_message. intros Hreply.
  unfold is_pr_approved, session_get. run. rewrite Hreply. simpl.
  destruct body as [j |]; simpl; [| reflexivity].
  destruct j; simpl; try reflexivity.
  destruct (dict_get d "total_count"); reflexivity.
Qed.

(** *** Further properties of the login *)

Lemma web_HTTPFound_run (location : string) (st : state) :
  web_HTTPFound location st
  = ((if String.eqb location "" then Raise ValueError
      else Ok (HTTPFound location)), st).
Proof. unfold web_HTTPFound. destruct (String.eqb location ""); reflexivity. Qed.

(** The two legs of [github_auth], up to the redirect they end in. *)
Lemma github_auth_start (r : request) (st : state) :
  query_get (query r) "code" = None ->
  github_auth r st
  = web_HTTPFound
      (get_authorize_url env (GITHUB_CLIENT_ID cfg) (GITHUB_CLIENT_SECRET cfg)
         "user:email")
      (with_session st
         (<["redirect_uri" := default "/" (query_get (query r) "redirect_uri")]>
            (session st))).
Proof. intros Hnocode. unfold github_auth. rewrite Hnocode. reflexivity. Qed.

Lemma github_auth_callback (r : request) (st : state) (code token : string) :
  query_get (query r) "code" = Some code ->
  get_access_token env (trace st) (GITHUB_CLIENT_ID cfg)
    (GITHUB_CLIENT_SECRET cfg) code = Some token ->
  github_auth r st
  = web_HTTPFound (default "/" (session st !! "redirect_uri"))
      {| session := delete "redirect_uri" (<["token" := token]> (session st));
         trace := trace st
                    ++ [TokenExchange code;
                        Log DEBUG ("Redirecting back to "
                                     +:+ default "/"
                                           (session st !! "redirect_uri"))] |}.
Proof.
  intros Hcode Htoken.
  unfold github_auth, github_get_access_token, session_set, session_pop.
  rewrite Hcode. run. rewrite Htoken. run.
  rewrite lookup_insert_ne by discriminate.
  unfold with_trace, with_session. simpl. rewrite <- app_assoc. reflexivity.
Qed.

(** X: when the provider refuses the code, [github_auth] raises and leaves
    the session as it was: the stored redirect target is still there for
    the next attempt, and no token is recorded. *)
Theorem github_auth_refused (r : request) (st : state) (code : string) :
  query_get (query r) "code" = Some code ->
  get_access_token env (trace st) (GITHUB_CLIENT_ID cfg)
    (GITHUB_CLIENT_SECRET cfg) code = None ->
  github_auth r st
  = (Raise OAuthError, with_trace st (trace st ++ [TokenExchange code]))
  /\ session (github_auth r st).2 = session st.
Proof.
  intros Hcode Hrefused.
  assert (Hrun : github_auth r st
                 = (Raise OAuthError,
                    with_trace st (trace st ++ [TokenExchange code]))).
  { unfold github_auth, github_get_access_token. rewrite Hcode. run.
    rewrite Hrefused. reflexivity. }
  rewrite Hrun. split; reflexivity.
Qed.

(** X: the stored redirect target is used once.  After a callback that
    succeeded, a second callback on the session it left redirects to "/",
    and the session holds the token of the second exchange. *)
Theorem github_auth_target_used_once (r r' : request) (st : state)
    (code code' token token' : string) :
  query_get (query r) "code" = Some code ->
  query_get (query r') "code" = Some code' ->
  get_access_token env (trace st) (GITHUB_CLIENT_ID cfg)
    (GITHUB_CLIENT_SECRET cfg) code = Some token ->
  get_access_token env (trace (github_auth r st).2) (GITHUB_CLIENT_ID cfg)
    (GITHUB_CLIENT_SECRET cfg) code' = Some token' ->
  (github_auth r' (github_auth r st).2).1 = Ok (HTTPFound "/")
  /\ session (github_auth r' (github_auth r st).2).2 !! "token" = Some token'
  /\ session (github_auth r' (github_auth r st).2).2 !! "redirect_uri" = None.
Proof.
  intros Hcode Hcode' Htoken Htoken'.
  rewrite (github_auth_callback r' _ code' token' Hcode' Htoken').
  rewrite (github_auth_callback r st code token Hcode Htoken).
  rewrite !web_HTTPFound_run. cbn [fst snd session].
  rewrite lookup_delete_eq. simpl.
  split; [reflexivity |]. split.
  - rewrite lookup_delete_ne by discriminate. apply lookup_insert_eq.
  - apply lookup_delete_eq.
Qed.

(** X: starting the login again replaces the stored redirect target: two
    requests without [code] in a row leave the session the second one alone
    would leave, contact nobody, and leave a recorded token where it is. *)
Theorem github_auth_restart (r1 r2 : request) (st : state) :
  query_get (query r1) "code" = None ->
  query_get (query r2) "code" = None ->
  github_auth r2 (github_auth r1 st).2 = github_auth r2 st
  /\ trace (github_auth r2 (github_auth r1 st).2).2 = trace st
  /\ session (github_auth r2 (github_auth r1 st).2).2 !! "token"
     = session st !! "token".
Proof.
  intros H1 H2.
  rewrite (github_auth_start r2 _ H2), (github_auth_start r2 st H2).
  rewrite (github_auth_start r1 st H1).
  rewrite !web_HTTPFound_run. cbn [fst snd session trace with_session].
  rewrite insert_insert_eq.
  split; [reflexivity |]. split; [reflexivity |].
  apply lookup_insert_ne. discriminate.
Qed.

(** *** The endpoint of the label deletion *)

Lemma string_app_length (a b : string) :
  String.length (a +:+ b) = (String.length a + String.length b)%nat.
Proof.
  induction a as [| ch a IH]; [reflexivity |].
  change (S (String.length (a +:+ b))
          = S (String.length a + String.length b)).
  rewrite IH. reflexivity.
Qed.

Lemma string_app_inv_tail (a b tail : string) :
  a +:+ tail = b +:+ tail -> a = b.
Proof.
  revert b. induction a as [| ch a IH]; intros [| ch' b] H.
  - reflexivity.
  - apply (f_equal String.length) in H.
    rewrite !string_app_length in H. simpl in H. lia.
  - apply (f_equal String.length) in H.
    rewrite !string_app_length in H. simpl in H. lia.
  - change (String ch (a +:+ tail) = String ch' (b +:+ tail)) in H.
    injection H as -> H. rewrite (IH b H). reflexivity.
Qed.

Lemma label_endpoint_str (n1 n2 : json) :
  label_endpoint n1 = label_endpoint n2 -> py_str n1 = py_str n2.
Proof.
  unfold label_endpoint. intros H.
  apply String.app_inj in H.
  apply string_app_inv_tail in H.
  unfold label_url in H.
  do 5 apply String.app_inj in H.
  apply string_app_inv_tail in H.
  exact H.
Qed.

(** X: the deletion request addresses the issue it is given: for two
    different issue numbers [delete_label] sends its DELETE to two different
    endpoints, whatever the repository, the label and the token are. *)
Theorem label_endpoint_tells_issues_apart (n1 n2 : Z) :
  n1 <> n2 ->
  label_endpoint (JInt n1) <> label_endpoint (JInt n2).
Proof.
  intros Hne H. apply label_endpoint_str in H. simpl in H.
  apply Hne. apply (inj pretty). exact H.
Qed.

End Program.

(** C4: for every title, [is_pr_approved] returns true if and only if the
    [total_count] of the search response is non-zero; the approval threshold
    of the configuration plays no part in it. *)
Theorem is_pr_approved_iff_nonzero (cfg : config) (env : world)
    (pr_title : json) (st : state) (status total_count : Z)
    (d : list (string * json)) :
  search_reply cfg env st pr_title = Reply status (Some (JDict d)) ->
  dict_get d "total_count" = Some (JInt total_count) ->
  exists approved : bool,
    is_pr_approved cfg env pr_title st
    = (Ok approved,
       with_trace st (trace st ++ search_events cfg env pr_title))
    /\ (approved = true <-> total_count <> 0)
    /\ (forall required : Z,
          is_pr_approved (with_required_approves cfg required) env pr_title st
          = is_pr_approved cfg env pr_title st).
Proof.
  intros Hreply Hcount. exists (negb (total_count =? 0)).
  split; [| split].
  - apply (is_pr_approved_answered cfg env _ _ _ _ _ Hreply Hcount).
  - destruct (Z.eqb_spec total_count 0) as [-> | Hne]; simpl.
    + split; [discriminate | intros H; now elim H].
    + split; auto.
  - intros required. reflexivity.
Qed.

(** ** The statements at work on the sample deployment *)

Import Sample.

(** A [labeled] webhook for the target label is acknowledged. *)
Lemma handle_pr_event_acknowledges_witness :
  exists st',
    handle_pr_event cfg (env 1 (Reply 200 None))
      (post (labeled "needs review")) st0
    = (Ok (Response 200 "Ok"), st').
Proof.
  apply (handle_pr_event_acknowledges cfg (env 1 (Reply 200 None))
           (post (labeled "needs review")) (labeled_items "needs review") st0
           eq_refl).
  split.
  - intros _. apply (returns_intro _ _ tt). reflexivity.
  - intros H. discriminate H.
Defined.

(** C1, as stated, fails: a body that names the action "labeled" and has no
    [label] gets no answer from the handler, which raises [KeyError]. *)
Lemma handle_pr_event_raises_on_missing_label :
  handle_pr_event cfg (env 1 (Reply 200 None))
    (post (JDict [("action", JStr "labeled")])) st0
  = (Raise (KeyError "label"), st0)
  /\ ~ (exists st',
          handle_pr_event cfg (env 1 (Reply 200 None))
            (post (JDict [("action", JStr "labeled")])) st0
          = (Ok (Response 200 "Ok"), st')).
Proof.
  split; [reflexivity |]. intros [st' H]. discriminate H.
Qed.

(** An approved review on a pull request the search finds: the label goes,
    then the channel hears that the pull request can be merged. *)
Lemma approved_and_met_witness :
  exists st2 logs res,
    delete_label cfg (env 1 (Reply 200 None)) (JInt 7)
      (with_trace st0
         (trace st0 ++ search_events cfg (env 1 (Reply 200 None))
                         (JStr "Fix cart total")
            ++ [Log INFO (removing_message cfg (env 1 (Reply 200 None))
                            (JStr "Fix cart total"))]))
    = (Ok tt, st2)
    /\ _handle_reviewed cfg (env 1 (Reply 200 None)) (submitted "approved") st0
       = (res,
          with_trace st0
            (trace st2
               ++ [SlackPost
                     ":green_check_mark: PR _Fix cart total_ has 2 approves and can be merged!"
                     "#reviews"]))
    /\ count is_request logs = 0%nat.
Proof.
  eexists.
  destruct (approved_and_met cfg (env 1 (Reply 200 None))
              (submitted "approved") st0 _ (JInt 7) (JStr "Fix cart total")
              200 1 (found 1) eq_refl eq_refl eq_refl eq_refl eq_refl
              ltac:(discriminate) eq_refl)
    as (logs & res & Hrun & Htrace & Hlogs & _).
  exists logs, res. split; [reflexivity |]. split; [| exact Hlogs].
  rewrite Hrun. cbn zeta. rewrite <- Htrace. reflexivity.
Defined.

(** The notification for pull request 7 of the sample payload. *)
Lemma labeled_target_notifies_witness :
  exists message res,
    _handle_labeled cfg (env 1 (Reply 200 None)) (labeled "needs review") st0
    = (res,
       with_trace st0
         [Log DEBUG
            "Sending notification about https://github.com/acme/shop/pull/7";
          SlackPost message "#reviews"])
    /\ contains message "Fix cart total"
    /\ contains message "octocat"
    /\ contains message "https://github.com/acme/shop/pull/7".
Proof.
  destruct (labeled_target_notifies cfg (env 1 (Reply 200 None))
              (labeled "needs review") st0 (JInt 7) (JStr "Fix cart total")
              (JStr "https://github.com/acme/shop/pull/7") (JStr "octocat")
              eq_refl eq_refl eq_refl eq_refl eq_refl)
    as (message & res & Hrun & _ & Htitle & Huser & Hurl & _).
  exists message, res. auto.
Defined.

(** Three matches against a threshold of two approvals: approved. *)
Lemma is_pr_approved_iff_nonzero_witness :
  (is_pr_approved cfg (env 3 NoReply) (JStr "Fix cart total") st0).1 = Ok true.
Proof.
  destruct (is_pr_approved_iff_nonzero cfg (env 3 NoReply)
              (JStr "Fix cart total") st0 200 3 (found 3) eq_refl eq_refl)
    as (approved & Hrun & Hiff & _).
  rewrite Hrun. simpl. f_equal. apply Hiff. discriminate.
Defined.

(** A 500 answer with a message: one request, one error line, no
    exception. *)
Lemma delete_label_terminal_witness :
  delete_label cfg
    (env 1 (Reply 500 (Some (JDict [("message", JStr "Server Error")]))))
    (JInt 7) st0
  = (Ok tt,
     with_trace st0
       [HttpDelete
          "https://api.github.com/repos/acme/shop/issues/7/labels/needs review?access_token=t0k3n";
        Log ERROR "Unexpected response: Server Error"]).
Proof.
  destruct (delete_label_terminal cfg
              (env 1 (Reply 500 (Some (JDict [("message", JStr "Server Error")]))))
              (JInt 7) st0 500
              (Some (JDict [("message", JStr "Server Error")])) eq_refl)
    as (lvl & msg & Hrun & _ & _ & Herror).
  - intros _ _. exists [("message", JStr "Server Error")], (JStr "Server Error").
    split; reflexivity.
  - destruct Herror as (-> & d & message & Hbody & Hmessage & ->);
      [discriminate | discriminate |].
    injection Hbody as <-. injection Hmessage as <-.
    exact Hrun.
Defined.

(** C5, as stated, fails: answered 502 with a body that is not JSON,
    [delete_label] raises. *)
Lemma delete_label_raises_without_message :
  (delete_label cfg (env 1 (Reply 502 None)) (JInt 7) st0).1
  = Raise JSONDecodeError.
Proof. reflexivity. Qed.

(** An approved review on a pull request the search does not find. *)
Lemma approved_without_results_witness :
  _handle_reviewed cfg (env 0 NoReply) (submitted "approved") st0
  = (Ok tt,
     with_trace st0
       (search_events cfg (env 0 NoReply) (JStr "Fix cart total"))).
Proof.
  apply (approved_without_results cfg (env 0 NoReply) (submitted "approved")
           st0 (JInt 7) (JStr "Fix cart total") 200 (found 0)
           eq_refl eq_refl eq_refl eq_refl eq_refl).
Defined.

(** Login from /dashboard: the callback lands on /dashboard. *)
Lemma github_auth_round_trip_witness :
  (github_auth cfg (env 0 NoReply) (auth [("code", "abc")])
     (github_auth cfg (env 0 NoReply)
        (auth [("redirect_uri", "/dashboard")]) st0).2).1
  = Ok (HTTPFound "/dashboard").
Proof.
  destruct (github_auth_round_trip cfg (env 0 NoReply)
              (auth [("redirect_uri", "/dashboard")]) (auth [("code", "abc")])
              st0
              (with_session st0 (<["redirect_uri" := "/dashboard"]> ∅))
              "abc" "token-for-abc" eq_refl eq_refl eq_refl)
    as (Hfirst & _ & Hsecond & _ & _ & _ & Htarget).
  - discriminate.
  - rewrite Hfirst. cbn [snd].
    rewrite <- (Htarget eq_refl).
    apply (f_equal fst (Hsecond ltac:(rewrite (Htarget eq_refl); discriminate))).
Defined.

(** C7, as stated, fails: a login started with an empty [redirect_uri]
    stores the empty string, and the callback that follows raises where the
    claim has it redirect. *)
Lemma github_auth_empty_target_raises :
  (github_auth cfg (env 0 NoReply) (auth [("code", "abc")])
     (github_auth cfg (env 0 NoReply) (auth [("redirect_uri", "")]) st0).2).1
  = Raise ValueError.
Proof. reflexivity. Qed.

(** A review that only comments changes nothing. *)
Lemma not_approved_no_check_witness :
  _handle_reviewed cfg (env 1 NoReply) (submitted "commented") st0
  = (Ok tt, st0).
Proof.
  destruct (not_approved_no_check cfg (env 1 NoReply) (submitted "commented")
              st0 (JStr "commented") eq_refl ltac:(discriminate))
    as ((res & Hrun & Hres) & _).
  rewrite Hrun, Hres; [reflexivity |]. exists (JInt 7). reflexivity.
Defined.

(** Another label changes nothing. *)
Lemma labeled_other_is_silent_witness :
  _handle_labeled cfg (env 1 NoReply) (labeled "bug") st0 = (Ok tt, st0).
Proof.
  destruct (labeled_other_is_silent cfg (env 1 NoReply) (labeled "bug") st0
              (JStr "bug") eq_refl ltac:(discriminate))
    as (res & Hrun & Hres).
  rewrite Hrun, Hres; [reflexivity | | | |]; eexists; reflexivity.
Defined.

(** A ping-like body without [action]. *)
Lemma absent_action_is_unknown_witness :
  handle_pr_event cfg (env 1 NoReply)
    (post (JDict [("zen", JStr "Keep it logically awesome.")])) st0
  = (Ok (Response 200 "Ok"),
     with_trace st0 [Log DEBUG "Unknown action None"]).
Proof.
  apply (absent_action_is_unknown cfg (env 1 NoReply)
           (post (JDict [("zen", JStr "Keep it logically awesome.")]))
           [("zen", JStr "Keep it logically awesome.")] st0
           eq_refl eq_refl).
Defined.

(** ** The healthcheck loop *)

Section HealthcheckProperties.

Import Healthcheck.

Variable cfg : settings.
Variable monitor : list event -> string -> answer.

Lemma loop_never_returns (turns : nat) (endpoint : string) (t : list event) :
  (loop cfg monitor turns endpoint t).1 <> Returned.
Proof.
  revert t. induction turns as [| turns IH]; intros t; simpl; [discriminate |].
  destruct (turn cfg monitor endpoint t) as [[why |] t']; simpl;
    [discriminate | apply IH].
Qed.

(** X: [healthcheck] returns if and only if no endpoint is configured (unset
    or empty); it then has written one info line and pinged nobody.  With
    an endpoint it never returns, however long it is observed. *)
Theorem healthcheck_returns_iff_disabled (turns : nat) (t : list event) :
  ((healthcheck cfg monitor turns t).1 = Returned
   <-> falsy (HEALTHCHECK_ENDPOINT cfg) = true)
  /\ (falsy (HEALTHCHECK_ENDPOINT cfg) = true ->
      (healthcheck cfg monitor turns t).2
      = t ++ [Logged INFO "Healthcheck service is disabled"]
      /\ pinged (healthcheck cfg monitor turns t).2 = pinged t).
Proof.
  unfold healthcheck.
  destruct (falsy (HEALTHCHECK_ENDPOINT cfg)) eqn:Hfalsy; simpl.
  - split; [split; reflexivity |]. intros _. split; [reflexivity |].
    unfold pinged. rewrite omap_app. simpl. apply app_nil_r.
  - split; [| discriminate]. split; [| discriminate].
    intros Hret. elim (loop_never_returns _ _ _ Hret).
Qed.

(** X: as long as every ping is answered with a readable body, whatever the
    statuses, the loop goes on: after any number of turns it is still
    running, and it has sent one ping to the configured endpoint and slept
    the configured interval once per turn. *)
Theorem healthcheck_keeps_pinging (endpoint : string) (turns : nat)
    (t : list event) :
  HEALTHCHECK_ENDPOINT cfg = Some endpoint ->
  endpoint <> "" ->
  (forall t', exists status text,
      monitor t' endpoint = Answer status (Some text)) ->
  (healthcheck cfg monitor turns t).1 = Running
  /\ pinged (healthcheck cfg monitor turns t).2
     = pinged t ++ replicate turns endpoint
  /\ slept (healthcheck cfg monitor turns t).2
     = slept t ++ replicate turns (HEALTHCHECK_INTERVAL cfg).
Proof.
  intros Hendpoint Hnonempty Hanswered. unfold healthcheck.
  rewrite Hendpoint. simpl.
  destruct (String.eqb_spec endpoint "") as [| _]; [contradiction |].
  revert t. induction turns as [| turns IH]; intros t; simpl.
  - rewrite !app_nil_r. auto.
  - unfold turn.
    destruct (Hanswered (t ++ [Logged DEBUG "Sending healthcheck..."]))
      as (status & text & ->).
    destruct (negb (status =? 200));
      match goal with
      | |- context [loop cfg monitor turns endpoint ?t'] =>
          destruct (IH t') as (Hrun & Hpinged & Hslept)
      end;
      rewrite Hrun, Hpinged, Hslept;
      unfold pinged, slept; rewrite !omap_app; simpl;
      rewrite !app_nil_r, <- !app_assoc; auto.
Qed.

(** X: a ping that gets no response ends the loop for good: the turn raises
    after the request, there is no sleep and no further ping, however long
    the run is observed. *)
Theorem healthcheck_stops_without_response (endpoint : string) (turns : nat)
    (t : list event) :
  HEALTHCHECK_ENDPOINT cfg = Some endpoint ->
  endpoint <> "" ->
  monitor (t ++ [Logged DEBUG "Sending healthcheck..."]) endpoint = NoAnswer ->
  healthcheck cfg monitor (S turns) t
  = (Crashed NoResponse,
     t ++ [Logged DEBUG "Sending healthcheck..."; Pinged endpoint]).
Proof.
  intros Hendpoint Hnonempty Hnone. unfold healthcheck.
  rewrite Hendpoint. simpl.
  destruct (String.eqb_spec endpoint "") as [| _]; [contradiction |].
  unfold turn. rewrite Hnone. rewrite <- app_assoc. reflexivity.
Qed.

(** X: a ping answered with a status other than 200 is logged as an error
    with the text of the body, and only that: with a monitor that always
    answers the same, every turn logs the error when the status is not 200
    and none when it is. *)
Theorem healthcheck_logs_failed_pings (endpoint : string) (turns : nat)
    (t : list event) (status : Z) (text : string) :
  HEALTHCHECK_ENDPOINT cfg = Some endpoint ->
  endpoint <> "" ->
  (forall t', monitor t' endpoint = Answer status (Some text)) ->
  errors (healthcheck cfg monitor turns t).2
  = errors t
      ++ replicate (if status =? 200 then 0%nat else turns)
           ("Request failed " +:+ text).
Proof.
  intros Hendpoint Hnonempty Hanswered. unfold healthcheck.
  rewrite Hendpoint. simpl.
  destruct (String.eqb_spec endpoint "") as [| _]; [contradiction |].
  revert t. induction turns as [| turns IH]; intros t; simpl.
  - destruct (status =? 200); simpl; rewrite app_nil_r; reflexivity.
  - unfold turn. rewrite Hanswered.
    destruct (status =? 200) eqn:Hstatus; simpl;
      rewrite IH; unfold errors; rewrite !omap_app; simpl;
      rewrite !app_nil_r, <- ?app_assoc; reflexivity.
Qed.

End HealthcheckProperties.

(** ** The further statements at work *)

(** A body that is a JSON list. *)
Lemma payload_must_be_object_witness :
  handle_pr_event cfg (env 1 NoReply) (post (JList [])) st0
  = (Raise AttributeError, st0).
Proof.
  apply (payload_must_be_object cfg (env 1 NoReply) (post (JList []))
           (JList []) st0 eq_refl).
  intros d. discriminate.
Defined.

(** A pull request that was opened. *)
Lemma other_action_is_logged_witness :
  handle_pr_event cfg (env 1 NoReply)
    (post (JDict [("action", JStr "opened")])) st0
  = (Ok (Response 200 "Ok"),
     with_trace st0 [Log DEBUG "Unknown action opened"]).
Proof.
  apply (other_action_is_logged cfg (env 1 NoReply)
           (post (JDict [("action", JStr "opened")]))
           [("action", JStr "opened")] (JStr "opened") st0
           eq_refl eq_refl);
    discriminate.
Defined.

(** A pull request without a title, labeled with another label. *)
Lemma labeled_reads_fields_first_witness :
  _handle_labeled cfg (env 1 NoReply)
    (JDict [("label", JDict [("name", JStr "bug")]);
            ("pull_request", JDict [("number", JInt 7)])]) st0
  = (Raise (KeyError "title"), st0).
Proof.
  apply (labeled_reads_fields_first cfg (env 1 NoReply)
           [("label", JDict [("name", JStr "bug")]);
            ("pull_request", JDict [("number", JInt 7)])]
           [("number", JInt 7)] (JDict [("name", JStr "bug")]) "title" st0
           eq_refl eq_refl eq_refl).
Defined.

(** A comment on a pull request without a number. *)
Lemma reviewed_reads_number_first_witness :
  _handle_reviewed cfg (env 1 NoReply)
    (JDict [("review", JDict [("state", JStr "commented")]);
            ("pull_request", JDict [("title", JStr "Fix cart total")])]) st0
  = (Raise (KeyError "number"), st0).
Proof.
  apply (reviewed_reads_number_first cfg (env 1 NoReply) _
           [("review", JDict [("state", JStr "commented")]);
            ("pull_request", JDict [("title", JStr "Fix cart total")])]
           [("title", JStr "Fix cart total")] (JStr "commented") st0
           eq_refl eq_refl eq_refl eq_refl).
Defined.

(** An approved review while the search is rate limited. *)
Lemma failed_check_aborts_witness :
  (_handle_reviewed cfg
     (Faulty.env Faulty.rate_limited NoReply None None)
     (submitted "approved") st0).1
  = Raise (KeyError "total_count").
Proof.
  rewrite (failed_check_aborts cfg
             (Faulty.env Faulty.rate_limited NoReply None None)
             (submitted "approved") st0 (JInt 7) (JStr "Fix cart total")
             (KeyError "total_count") eq_refl eq_refl eq_refl eq_refl).
  reflexivity.
Defined.

(** An approved, found pull request whose label deletion is answered 502
    with a page that is not JSON. *)
Lemma failed_deletion_is_not_announced_witness :
  (_handle_reviewed cfg (env 1 (Reply 502 None)) (submitted "approved") st0).1
  = Raise JSONDecodeError.
Proof.
  destruct (failed_deletion_is_not_announced cfg (env 1 (Reply 502 None))
              (submitted "approved") st0 (JInt 7) (JStr "Fix cart total")
              JSONDecodeError eq_refl eq_refl eq_refl eq_refl eq_refl)
    as (logs & Hrun & _).
  rewrite Hrun. reflexivity.
Defined.

(** A rate-limited search: status 403, no [total_count]. *)
Lemma is_pr_approved_reads_body_only_witness :
  (is_pr_approved cfg (Faulty.env Faulty.rate_limited NoReply None None)
     (JStr "Fix cart total") st0).1
  = Raise (KeyError "total_count").
Proof.
  apply (is_pr_approved_reads_body_only cfg
           (Faulty.env Faulty.rate_limited NoReply None None)
           (JStr "Fix cart total") st0 403
           (Some (JDict [("message", JStr "API rate limit exceeded")]))
           eq_refl).
Defined.

(** A callback with a code the provider refuses, after a login that was
    started from /dashboard. *)
Lemma github_auth_refused_witness :
  session
    (github_auth cfg (Faulty.env NoReply NoReply None None)
       (auth [("code", "stale")])
       (with_session st0 (<["redirect_uri" := "/dashboard"]> ∅))).2
  !! "redirect_uri" = Some "/dashboard".
Proof.
  destruct (github_auth_refused cfg (Faulty.env NoReply NoReply None None)
              (auth [("code", "stale")])
              (with_session st0 (<["redirect_uri" := "/dashboard"]> ∅))
              "stale" eq_refl eq_refl)
    as (_ & Hsession).
  rewrite Hsession. apply lookup_insert_eq.
Defined.

(** Two callbacks after a login that was started from /dashboard. *)
Lemma github_auth_target_used_once_witness :
  (github_auth cfg (env 1 NoReply) (auth [("code", "def")])
     (github_auth cfg (env 1 NoReply) (auth [("code", "abc")])
        (with_session st0 (<["redirect_uri" := "/dashboard"]> ∅))).2).1
  = Ok (HTTPFound "/").
Proof.
  apply (github_auth_target_used_once cfg (env 1 NoReply)
           (auth [("code", "abc")]) (auth [("code", "def")])
           (with_session st0 (<["redirect_uri" := "/dashboard"]> ∅))
           "abc" "def" "token-for-abc" "token-for-def"
           eq_refl eq_refl eq_refl eq_refl).
Defined.

(** A login started from /a, then started again from /b. *)
Lemma github_auth_restart_witness :
  github_auth cfg (env 1 NoReply) (auth [("redirect_uri", "/b")])
    (github_auth cfg (env 1 NoReply) (auth [("redirect_uri", "/a")]) st0).2
  = github_auth cfg (env 1 NoReply) (auth [("redirect_uri", "/b")]) st0.
Proof.
  apply (github_auth_restart cfg (env 1 NoReply)
           (auth [("redirect_uri", "/a")]) (auth [("redirect_uri", "/b")])
           st0 eq_refl eq_refl).
Defined.

(** Three turns against a monitor that answers 200. *)
Lemma healthcheck_keeps_pinging_witness :
  (Healthcheck.healthcheck Healthcheck.sample_settings
     (Healthcheck.sample_monitor 200) 3 []).1 = Healthcheck.Running
  /\ Healthcheck.pinged
       (Healthcheck.healthcheck Healthcheck.sample_settings
          (Healthcheck.sample_monitor 200) 3 []).2
     = ["https://hc.example.org/ping"; "https://hc.example.org/ping";
        "https://hc.example.org/ping"]
  /\ Healthcheck.slept
       (Healthcheck.healthcheck Healthcheck.sample_settings
          (Healthcheck.sample_monitor 200) 3 []).2
     = [60; 60; 60].
Proof.
  apply (healthcheck_keeps_pinging Healthcheck.sample_settings
           (Healthcheck.sample_monitor 200) "https://hc.example.org/ping"
           3 [] eq_refl).
  - discriminate.
  - intros t'. exists 200, "pong". reflexivity.
Defined.

(** A monitor that is down. *)
Lemma healthcheck_stops_without_response_witness :
  Healthcheck.healthcheck Healthcheck.sample_settings
    Healthcheck.silent_monitor 5 []
  = (Healthcheck.Crashed Healthcheck.NoResponse,
     [Healthcheck.Logged DEBUG "Sending healthcheck...";
      Healthcheck.Pinged "https://hc.example.org/ping"]).
Proof.
  apply (healthcheck_stops_without_response Healthcheck.sample_settings
           Healthcheck.silent_monitor "https://hc.example.org/ping" 4 []
           eq_refl).
  - discriminate.
  - reflexivity.
Defined.

(** Two turns against a monitor that answers 503. *)
Lemma healthcheck_logs_failed_pings_witness :
  Healthcheck.errors
    (Healthcheck.healthcheck Healthcheck.sample_settings
       (Healthcheck.sample_monitor 503) 2 []).2
  = ["Request failed pong"; "Request failed pong"].
Proof.
  apply (healthcheck_logs_failed_pings Healthcheck.sample_settings
           (Healthcheck.sample_monitor 503) "https://hc.example.org/ping"
           2 [] 503 "pong" eq_refl).
  - discriminate.
  - reflexivity.
Defined.

(** Issues 7 and 8 of the sample repository. *)
Lemma label_endpoint_tells_issues_apart_witness :
  label_endpoint cfg (env 1 NoReply) (JInt 7)
  <> label_endpoint cfg (env 1 NoReply) (JInt 8).
Proof.
  apply (label_endpoint_tells_issues_apart cfg (env 1 NoReply) 7 8).
  discriminate.
Defined.
